(** * flask-todo-demo: a shallow embedding of [app.py]

    The application module has one lazily created datastore handle
    ([mongo_client], a module global), a helper [get_mongo_collection] and
    four view functions: [api_list] (GET /api), [form] (GET /), [submit]
    (POST /submit) and [success] (GET /success).

    Python strings are lists of Unicode code points.  Python exceptions are
    a result type; the module global, the session's flashed messages and the
    calls made on the datastore driver are fields of a [World] record that a
    small state-and-exception monad threads through the views.  What the
    module imports and does not define (the process environment, the JSON
    decoder, the pymongo driver) is the interface [Platform]. *)

From Stdlib Require Import List String Ascii NArith ZArith Bool.
Import ListNotations.

Set Implicit Arguments.
Set Warnings "-register-all".

(** ** Strings *)

Definition char := N.
Definition str := list char.

(** A source literal, as code points. *)
Definition lit (s : string) : str :=
  List.map N_of_ascii (list_ascii_of_string s).

Fixpoint str_eqb (a b : str) : bool :=
  match a, b with
  | [], [] => true
  | x :: a', y :: b' => N.eqb x y && str_eqb a' b'
  | _, _ => false
  end.

(** [str.isspace] on one code point: the table CPython's [str.strip()]
    consults when called with no argument. *)
Definition isspace (c : char) : bool :=
  ((0x09 <=? c) && (c <=? 0x0D) || (0x1C <=? c) && (c <=? 0x20)
   || (c =? 0x85) || (c =? 0xA0) || (c =? 0x1680)
   || (0x2000 <=? c) && (c <=? 0x200A)
   || (c =? 0x2028) || (c =? 0x2029) || (c =? 0x202F)
   || (c =? 0x205F) || (c =? 0x3000))%N.

Fixpoint lstrip (s : str) : str :=
  match s with
  | c :: r => if isspace c then lstrip r else s
  | [] => []
  end.

Definition rstrip (s : str) : str := rev (lstrip (rev s)).

(** [s.strip()] *)
Definition strip (s : str) : str := rstrip (lstrip s).

(** Truth value of a string: [not s] holds of the empty string only. *)
Definition not_ (s : str) : bool :=
  match s with [] => true | _ :: _ => false end.

(** ** Python values that [json.load] returns and [jsonify] takes *)

Inductive pyobj : Type :=
| PNone
| PBool (b : bool)
| PInt (z : Z)
| PFloat (bits : Z)                      (* a binary64, by its bit pattern *)
| PStr (s : str)
| PList (l : list pyobj)
| PDict (d : list (str * pyobj)).        (* insertion-ordered *)

(** [isinstance(data, list)] *)
Definition isinstance_list (data : pyobj) : bool :=
  match data with PList _ => true | _ => false end.

(** ** Exceptions

    The class records which [except] clause of the module an exception
    matches; [exc_str] is [str(e)]. *)

Inductive exc_class : Type :=
| RuntimeError
| PyMongoError
| JSONDecodeError
| OtherException.

Record exn : Type := Exn { exc_type : exc_class; exc_str : str }.

Definition is_RuntimeError (e : exn) : bool :=
  match exc_type e with RuntimeError => true | _ => false end.
Definition is_PyMongoError (e : exn) : bool :=
  match exc_type e with PyMongoError => true | _ => false end.
Definition is_JSONDecodeError (e : exn) : bool :=
  match exc_type e with JSONDecodeError => true | _ => false end.

(** ** The datastore driver's objects *)

(** A [MongoClient] object.  [client_id] is its identity: the number of
    clients the process had constructed before it. *)
Record MongoClient : Type := {
  client_host : str;
  serverSelectionTimeoutMS : Z;
  client_id : nat
}.

Record Database : Type := { db_client : MongoClient; db_name : str }.
Record Collection : Type := { coll_database : Database; coll_name : str }.

(** The dict built by [submit]: keys in the order the literal lists them. *)
Definition document := list (str * str).

Definition ObjectId := Z.
Record InsertOneResult : Type := { inserted_id : ObjectId }.

(** ** The form of a request: a MultiDict, as its (key, value) pairs *)

Definition MultiDict := list (str * str).

Fixpoint getitem (d : MultiDict) (key : str) : option str :=
  match d with
  | [] => None
  | (k, v) :: r => if str_eqb k key then Some v else getitem r key
  end.

(** [d.get(key, default)]: the first value stored under [key]. *)
Definition get (d : MultiDict) (key default : str) : str :=
  match getitem d key with Some v => v | None => default end.

(** ** Responses *)

Inductive Body : Type :=
| Json (v : pyobj)
    (* jsonify(v) *)
| Html (template : str) (context : list (str * str)) (flashed : list (str * str))
    (* render_template(template, **context); [flashed] are the (category,
       message) pairs get_flashed_messages() holds for the template *)
| Location (url : str).
    (* redirect(url) *)

Record Response : Type := { status : Z; body : Body }.

(** ** What the module imports *)

Class Platform : Type := {
  (* os.environ, after load_dotenv() *)
  environ : list (str * str);
  (* json.loads on the text of a file *)
  json_loads : str -> exn + pyobj;
  (* the exception MongoClient(host, serverSelectionTimeoutMS=t) raises, if any *)
  MongoClient_raises : str -> Z -> option exn;
  (* the exception client[name] raises, if any *)
  Database_raises : str -> option exn;
  (* the exception db[name] raises, if any *)
  Collection_raises : str -> option exn;
  (* collection.insert_one(doc), given the calls made before it *)
  insert_one_outcome :
    Collection -> document -> list (Collection * document) -> exn + InsertOneResult
}.

(** ** The state a request runs in *)

Record World : Type := {
  (* the module global *)
  mongo_client : option MongoClient;
  (* every MongoClient the process constructed, oldest first *)
  constructed : list MongoClient;
  (* every insert_one call made, oldest first *)
  insert_calls : list (Collection * document);
  (* session["_flashes"] of the request being served: (category, message) pairs *)
  flashes : list (str * str);
  (* DATA_FILE.exists(): its answer, or the OSError it lets through *)
  data_file_exists : exn + bool;
  (* DATA_FILE.open("r", encoding="utf-8") followed by f.read() *)
  data_file_read : exn + str
}.

Definition set_mongo_client (c : MongoClient) (w : World) : World :=
  {| mongo_client := Some c;
     constructed := constructed w;
     insert_calls := insert_calls w;
     flashes := flashes w;
     data_file_exists := data_file_exists w;
     data_file_read := data_file_read w |}.

Definition add_constructed (c : MongoClient) (w : World) : World :=
  {| mongo_client := mongo_client w;
     constructed := constructed w ++ [c];
     insert_calls := insert_calls w;
     flashes := flashes w;
     data_file_exists := data_file_exists w;
     data_file_read := data_file_read w |}.

Definition add_insert_call (c : Collection) (d : document) (w : World) : World :=
  {| mongo_client := mongo_client w;
     constructed := constructed w;
     insert_calls := insert_calls w ++ [(c, d)];
     flashes := flashes w;
     data_file_exists := data_file_exists w;
     data_file_read := data_file_read w |}.

Definition add_flash (category message : str) (w : World) : World :=
  {| mongo_client := mongo_client w;
     constructed := constructed w;
     insert_calls := insert_calls w;
     flashes := flashes w ++ [(category, message)];
     data_file_exists := data_file_exists w;
     data_file_read := data_file_read w |}.

Definition clear_flashes (w : World) : World :=
  {| mongo_client := mongo_client w;
     constructed := constructed w;
     insert_calls := insert_calls w;
     flashes := [];
     data_file_exists := data_file_exists w;
     data_file_read := data_file_read w |}.

(** The requests the [@app.route] rules accept. *)
Inductive Request : Type :=
| GET_api                                  (* @app.route("/api", methods=["GET"]) *)
| GET_index                                (* @app.route("/", methods=["GET"]) *)
| POST_submit (request_form : MultiDict)   (* @app.route("/submit", methods=["POST"]) *)
| GET_success.                             (* @app.route("/success", methods=["GET"]) *)

(** What is not the process's own and may differ from one request to the
    next: the flashed messages in the session cookie the request carries,
    and [data.json] as the request finds it. *)
Record Ambient : Type := {
  session_flashes : list (str * str);
  file_exists : exn + bool;
  file_read : exn + str
}.

Definition enter (a : Ambient) (w : World) : World :=
  {| mongo_client := mongo_client w;
     constructed := constructed w;
     insert_calls := insert_calls w;
     flashes := session_flashes a;
     data_file_exists := file_exists a;
     data_file_read := file_read a |}.

(** The handle and the clients constructed so far agree: none while the
    handle is unset, the one it holds afterwards. *)
Definition at_most_one_client (w : World) : Prop :=
  match mongo_client w with
  | None => constructed w = []
  | Some c => constructed w = [c]
  end.

(** ** The monad: state that survives a raised exception *)

Definition M (A : Type) : Type := World -> (exn + A) * World.

Definition ret {A} (a : A) : M A := fun w => (inr a, w).

Definition bind {A B} (m : M A) (k : A -> M B) : M B :=
  fun w =>
    match m w with
    | (inr a, w') => k a w'
    | (inl e, w') => (inl e, w')
    end.

Definition raise {A} (e : exn) : M A := fun w => (inl e, w).

(** [try: m  except Exception as e: h e] *)
Definition try_except {A} (m : M A) (h : exn -> M A) : M A :=
  fun w =>
    match m w with
    | (inl e, w') => h e w'
    | (inr a, w') => (inr a, w')
    end.

Definition gets {A} (f : World -> A) : M A := fun w => (inr (f w), w).
Definition modify (f : World -> World) : M unit := fun w => (inr tt, f w).

(** An imported call that returns or raises and touches no state. *)
Definition lift {A} (r : exn + A) : M A := fun w => (r, w).

(** An imported check that raises or passes. *)
Definition guard (r : option exn) : M unit :=
  match r with Some e => raise e | None => ret tt end.

Declare Scope py_scope.
Delimit Scope py_scope with py.
Notation "x <- m ;; k" := (bind m (fun x => k))
  (at level 100, m at next level, right associativity) : py_scope.
Notation "m ;;; k" := (bind m (fun _ => k))
  (at level 100, right associativity) : py_scope.
Local Open Scope py_scope.

(** ** Imported calls *)

Section Imports.
Context `{Platform}.

(** [os.environ.get(key)] *)
Definition environ_get (key : str) : option str := getitem environ key.

(** [os.environ.get(key, default)] *)
Definition environ_get_default (key default : str) : str :=
  get environ key default.

(** [MongoClient(host, serverSelectionTimeoutMS=t)]: a new object each
    time it returns. *)
Definition new_MongoClient (host : str) (t : Z) : M MongoClient :=
  guard (MongoClient_raises host t) ;;;
  n <- gets (fun w => List.length (constructed w)) ;;
  let c := {| client_host := host; serverSelectionTimeoutMS := t; client_id := n |} in
  modify (add_constructed c) ;;;
  ret c.

(** [client[name]] *)
Definition client_getitem (c : MongoClient) (name : str) : M Database :=
  guard (Database_raises name) ;;;
  ret {| db_client := c; db_name := name |}.

(** [db[name]] *)
Definition database_getitem (d : Database) (name : str) : M Collection :=
  guard (Collection_raises name) ;;;
  ret {| coll_database := d; coll_name := name |}.

(** [collection.insert_one(doc)]: the call is recorded whether it returns
    or raises. *)
Definition insert_one (c : Collection) (doc : document) : M InsertOneResult :=
  fun w => (insert_one_outcome c doc (insert_calls w), add_insert_call c doc w).

(** [DATA_FILE.exists()] *)
Definition DATA_FILE_exists : M bool := fun w => (data_file_exists w, w).

(** [json.load(f)] on [DATA_FILE] opened for reading as UTF-8 text. *)
Definition json_load_DATA_FILE : M pyobj :=
  text <- (fun w => (data_file_read w, w)) ;;
  lift (json_loads text).

End Imports.

(** [flash(message, category)] *)
Definition flash (message category : str) : M unit :=
  modify (add_flash category message).

(** Modelled from the spec: the templates, which are not part of [app.py].
    A rendered page displays the pending notices, and displaying them takes
    them out of the session ([get_flashed_messages] pops [_flashes]): a
    notice is shown on the next rendered page only.

    [render_template(template, **context)] *)
Definition render_template (template : str) (context : list (str * str)) : M Body :=
  pending <- gets flashes ;;
  modify clear_flashes ;;;
  ret (Html template context pending).

(** [jsonify(v)] *)
Definition jsonify (v : pyobj) : Response := {| status := 200; body := Json v |}.

(** [redirect(url)] *)
Definition redirect (url : str) : Response := {| status := 302; body := Location url |}.

(** A view's [return rv, code]. *)
Definition with_status (r : Response) (code : Z) : Response :=
  {| status := code; body := body r |}.

(** The rules the [@app.route] decorators register: endpoint, then path. *)
Definition url_map : list (str * str) :=
  [ (lit "api_list", lit "/api");
    (lit "form", lit "/");
    (lit "submit", lit "/submit");
    (lit "success", lit "/success") ].

(** [url_for(endpoint)] *)
Definition url_for (endpoint : str) : M str :=
  match getitem url_map endpoint with
  | Some rule => ret rule
  | None => raise (Exn OtherException (lit "Could not build url for endpoint " ++ endpoint))
  end.

(** ** The module *)

(** [request.form.get(key, "").strip()], the expression [submit] reads each
    field with. *)
Definition submitted (request_form : MultiDict) (key : str) : str :=
  strip (get request_form key (lit "")).

Section App.
Context `{Platform}.

Definition MONGO_URI : option str := environ_get (lit "MONGO_URI").
Definition DB_NAME : str := environ_get_default (lit "DB_NAME") (lit "mydatabase").
Definition COLLECTION_NAME : str :=
  environ_get_default (lit "COLLECTION_NAME") (lit "submissions").

Definition get_mongo_collection : M Collection :=
  match MONGO_URI with
  | None =>
      raise (Exn RuntimeError (lit "MONGO_URI is not configured in environment variables."))
  | Some uri =>
      current <- gets mongo_client ;;
      match current with
      | None =>
          c <- new_MongoClient uri 5000 ;;
          modify (set_mongo_client c)
      | Some _ => ret tt
      end ;;;
      client <- gets mongo_client ;;
      match client with
      | None => raise (Exn OtherException (lit "'NoneType' object is not subscriptable"))
      | Some c =>
          db <- client_getitem c DB_NAME ;;
          database_getitem db COLLECTION_NAME
      end
  end.

(** The last two lines of [get_mongo_collection], for a handle holding
    [c]: [mongo_client[DB_NAME][COLLECTION_NAME]]. *)
Definition lookup (c : MongoClient) : M Collection :=
  db <- client_getitem c DB_NAME ;;
  database_getitem db COLLECTION_NAME.

Definition error_body (message : str) : pyobj :=
  PDict [(lit "error", PStr message)].

Definition api_list : M Response :=
  present <- DATA_FILE_exists ;;
  if negb present then
    ret (jsonify (PList []))
  else
    try_except
      (data <- json_load_DATA_FILE ;;
       if negb (isinstance_list data) then
         ret (with_status
                (jsonify (error_body (lit "backend file does not contain a JSON list")))
                500)
       else
         ret (jsonify data))
      (fun e =>
         if is_JSONDecodeError e then
           ret (with_status (jsonify (error_body (lit "invalid JSON in backend file"))) 500)
         else
           ret (with_status (jsonify (error_body (exc_str e))) 500)).

Definition form : M Response :=
  page <- render_template (lit "form.html") [] ;;
  ret {| status := 200; body := page |}.

Definition form_context (name email message : str) : list (str * str) :=
  [(lit "name", name); (lit "email", email); (lit "message", message)].

Definition submit (request_form : MultiDict) : M Response :=
  let name := strip (get request_form (lit "name") (lit "")) in
  let email := strip (get request_form (lit "email") (lit "")) in
  let message := strip (get request_form (lit "message") (lit "")) in
  if not_ name || not_ email then
    flash (lit "Name and email are required.") (lit "error") ;;;
    page <- render_template (lit "form.html") (form_context name email message) ;;
    ret {| status := 400; body := page |}
  else
    let doc : document :=
      [(lit "name", name); (lit "email", email); (lit "message", message)] in
    try_except
      (collection <- get_mongo_collection ;;
       result <- insert_one collection doc ;;
       url <- url_for (lit "success") ;;
       ret (redirect url))
      (fun e =>
         if is_RuntimeError e then
           flash (lit "Server configuration error: " ++ exc_str e) (lit "error") ;;;
           page <- render_template (lit "form.html") (form_context name email message) ;;
           ret {| status := 500; body := page |}
         else if is_PyMongoError e then
           flash (lit "Database error: " ++ exc_str e) (lit "error") ;;;
           page <- render_template (lit "form.html") (form_context name email message) ;;
           ret {| status := 500; body := page |}
         else
           flash (lit "Unexpected error: " ++ exc_str e) (lit "error") ;;;
           page <- render_template (lit "form.html") (form_context name email message) ;;
           ret {| status := 500; body := page |}).

Definition success : M Response :=
  page <- render_template (lit "success.html") [] ;;
  ret {| status := 200; body := page |}.

(** *** The process, serving requests in turn

    [serve] takes one request after another, each to its end, as a server
    with a single thread does.  What calls of [get_mongo_collection] do
    when they overlap is the matter of [interleave] below. *)

Definition dispatch_request (r : Request) : M Response :=
  match r with
  | GET_api => api_list
  | GET_index => form
  | POST_submit f => submit f
  | GET_success => success
  end.

Fixpoint serve (rs : list (Request * Ambient)) (w : World)
  : list (exn + Response) * World :=
  match rs with
  | [] => ([], w)
  | (r, a) :: rest =>
      let (out, w1) := dispatch_request r (enter a w) in
      let (outs, w2) := serve rest w1 in
      (out :: outs, w2)
  end.

End App.

(** ** Calls of [get_mongo_collection] that overlap

    [app.run] serves each request on a thread of its own, and nothing locks
    the handle: between the test of line 27 and the assignment of line 28
    another call may run.  A call is cut here at the places where that
    matters: after the test of the handle, after the constructor has
    returned, and after the assignment. *)

Inductive call : Type :=
| Entering                        (* line 25 not yet run *)
| Constructing (uri : str)        (* line 27 found the handle unset; the constructor not yet called *)
| Assigning (c : MongoClient)     (* the constructor returned [c]; the global not yet assigned *)
| LookingUp                       (* line 30 not yet run *)
| Returned (r : exn + Collection).

(** A call that is not between its test of the handle and its assignment. *)
Definition settled (k : call) : Prop :=
  match k with
  | Constructing _ | Assigning _ => False
  | Entering | LookingUp | Returned _ => True
  end.

Section Threads.
Context `{Platform}.





End Threads.

(** ** A platform to run the module on

    A decoder for the fragment of JSON made of [null], [true], [false],
    integers, strings without escapes, arrays and objects; a driver whose
    calls all return; an environment given by the caller. *)

Module Sample.

Definition json_ws (c : char) : bool :=
  ((c =? 0x20) || (c =? 0x09) || (c =? 0x0A) || (c =? 0x0D))%N.

Fixpoint skip_ws (s : str) : str :=
  match s with
  | c :: r => if json_ws c then skip_ws r else s
  | [] => []
  end.

Fixpoint strip_prefix (p s : str) : option str :=
  match p, s with
  | [], _ => Some s
  | a :: p', b :: s' => if N.eqb a b then strip_prefix p' s' else None
  | _ :: _, [] => None
  end.

Definition is_digit (c : char) : bool := ((0x30 <=? c) && (c <=? 0x39))%N.

Fixpoint scan_digits (s : str) (acc : Z) : Z * str :=
  match s with
  | c :: r =>
      if is_digit c then scan_digits r (10 * acc + Z.of_N (c - 0x30)) else (acc, s)
  | [] => (acc, [])
  end.

(** After an opening quote: the characters up to the closing one. *)
Fixpoint scan_string (s acc : str) : option (str * str) :=
  match s with
  | [] => None
  | c :: r =>
      if (c =? 0x22)%N then Some (rev acc, r)
      else if ((c =? 0x5C) || (c <? 0x20))%N then None
      else scan_string r (c :: acc)
  end.

Fixpoint scan_value (fuel : nat) (s : str) : option (pyobj * str) :=
  match fuel with
  | O => None
  | S fuel' =>
      let s := skip_ws s in
      match strip_prefix (lit "null") s with
      | Some r => Some (PNone, r)
      | None =>
      match strip_prefix (lit "true") s with
      | Some r => Some (PBool true, r)
      | None =>
      match strip_prefix (lit "false") s with
      | Some r => Some (PBool false, r)
      | None =>
      match s with
      | [] => None
      | c :: r =>
          if (c =? 0x22)%N then
            match scan_string r [] with
            | Some (t, r') => Some (PStr t, r')
            | None => None
            end
          else if (c =? 0x5B)%N then
            match skip_ws r with
            | c' :: r' =>
                if (c' =? 0x5D)%N then Some (PList [], r')
                else scan_elements fuel' r []
            | [] => None
            end
          else if (c =? 0x7B)%N then
            match skip_ws r with
            | c' :: r' =>
                if (c' =? 0x7D)%N then Some (PDict [], r')
                else scan_members fuel' r []
            | [] => None
            end
          else if (c =? 0x2D)%N then
            match r with
            | d :: _ =>
                if is_digit d then
                  let (n, r') := scan_digits r 0 in Some (PInt (- n), r')
                else None
            | [] => None
            end
          else if is_digit c then
            let (n, r') := scan_digits s 0 in Some (PInt n, r')
          else None
      end end end end
  end
with scan_elements (fuel : nat) (s : str) (acc : list pyobj) : option (pyobj * str) :=
  match fuel with
  | O => None
  | S fuel' =>
      match scan_value fuel' s with
      | Some (v, r) =>
          match skip_ws r with
          | c :: r' =>
              if (c =? 0x2C)%N then scan_elements fuel' r' (v :: acc)
              else if (c =? 0x5D)%N then Some (PList (rev (v :: acc)), r')
              else None
          | [] => None
          end
      | None => None
      end
  end
with scan_members (fuel : nat) (s : str) (acc : list (str * pyobj)) : option (pyobj * str) :=
  match fuel with
  | O => None
  | S fuel' =>
      match skip_ws s with
      | q :: r =>
          if (q =? 0x22)%N then
            match scan_string r [] with
            | Some (k, r1) =>
                match skip_ws r1 with
                | colon :: r2 =>
                    if (colon =? 0x3A)%N then
                      match scan_value fuel' r2 with
                      | Some (v, r3) =>
                          match skip_ws r3 with
                          | c :: r4 =>
                              if (c =? 0x2C)%N then scan_members fuel' r4 ((k, v) :: acc)
                              else if (c =? 0x7D)%N then Some (PDict (rev ((k, v) :: acc)), r4)
                              else None
                          | [] => None
                          end
                      | None => None
                      end
                    else None
                | [] => None
                end
            | None => None
            end
          else None
      | [] => None
      end
  end.

Definition loads (s : str) : exn + pyobj :=
  match scan_value (2 * List.length s + 2) s with
  | Some (v, r) =>
      match skip_ws r with
      | [] => inr v
      | _ :: _ => inl (Exn JSONDecodeError (lit "Extra data"))
      end
  | None => inl (Exn JSONDecodeError (lit "Expecting value"))
  end.

Definition platform (env : list (str * str)) : Platform :=
  {| environ := env;
     json_loads := loads;
     MongoClient_raises := fun _ _ => None;
     Database_raises := fun _ => None;
     Collection_raises := fun _ => None;
     insert_one_outcome := fun _ _ calls =>
       inr {| inserted_id := Z.of_nat (List.length calls) |} |}.

(** The environment with a connection string, and the one without. *)
Definition configured : Platform :=
  platform [(lit "MONGO_URI", lit "mongodb://localhost:27017")].
Definition unconfigured : Platform := platform [].

(** A fresh process; [data.json] absent. *)
Definition boot : World :=
  {| mongo_client := None;
     constructed := [];
     insert_calls := [];
     flashes := [];
     data_file_exists := inr false;
     data_file_read := inl (Exn OtherException (lit "[Errno 2] No such file or directory")) |}.

(** A fresh process beside a [data.json] holding [text]. *)
Definition boot_with (text : str) : World :=
  {| mongo_client := None;
     constructed := [];
     insert_calls := [];
     flashes := [];
     data_file_exists := inr true;
     data_file_read := inr text |}.

(** What the first call of [get_mongo_collection] builds under
    [configured] with the default names. *)
Definition client0 : MongoClient :=
  {| client_host := lit "mongodb://localhost:27017";
     serverSelectionTimeoutMS := 5000;
     client_id := 0 |}.
Definition submissions : Collection :=
  {| coll_database := {| db_client := client0; db_name := lit "mydatabase" |};
     coll_name := lit "submissions" |}.



Definition dq : str := [0x22%N].

(** The text [[{"id":1,"name":"A"}]]. *)
Definition catalog_text : str :=
  lit "[{" ++ dq ++ lit "id" ++ dq ++ lit ":1," ++ dq ++ lit "name" ++ dq
    ++ lit ":" ++ dq ++ lit "A" ++ dq ++ lit "}]".

(** The text [{"id":1}]. *)
Definition object_text : str :=
  lit "{" ++ dq ++ lit "id" ++ dq ++ lit ":1}".

(** The text [[1,]]. *)
Definition malformed_text : str := lit "[1,]".

(** Forms: one that passes validation once trimmed, one with an empty
    name, one with no message at all. *)
Definition ann_form : MultiDict :=
  [(lit "name", lit "  Ann "); (lit "email", lit "ann@x.com"); (lit "message", lit "")].
Definition nameless_form : MultiDict :=
  [(lit "name", lit ""); (lit "email", lit "x@y.com"); (lit "message", lit "hi")].
Definition short_form : MultiDict :=
  [(lit "name", lit "Ann"); (lit "email", lit "ann@x.com")].

(** Requests served after the handle is set, each with an empty session
    and no [data.json], but for the third, which finds the catalog. *)
Definition quiet : Ambient :=
  {| session_flashes := [];
     file_exists := inr false;
     file_read := inl (Exn OtherException (lit "[Errno 2] No such file or directory")) |}.
Definition requests : list (Request * Ambient) :=
  [ (POST_submit ann_form, quiet);
    (GET_api, quiet);
    (GET_api, {| session_flashes := []; file_exists := inr true; file_read := inr catalog_text |});
    (POST_submit nameless_form, quiet);
    (GET_index, quiet);
    (GET_success, quiet) ].

End Sample.


(** ** The entry point and the shape of what is stored *)

Section Main.
Context `{Platform}.

(** [os.environ.get("FLASK_DEBUG", "1") == "1"], the [debug] flag the
    [__main__] block hands to [app.run]. *)
Definition debug : bool :=
  str_eqb (environ_get_default (lit "FLASK_DEBUG") (lit "1")) (lit "1").

End Main.

(** The dict literal of [submit], as it is past the validation test: three
    keys in this order, each value as [strip] leaves it, name and email not
    empty. *)
Definition submission (d : document) : Prop :=
  exists name email message,
    d = [(lit "name", name); (lit "email", email); (lit "message", message)]
    /\ name <> [] /\ email <> []
    /\ strip name = name /\ strip email = email /\ strip message = message.

(** ** Platforms on which the datastore fails *)

Module Outage.

(** [insert_one] raises a PyMongoError: no server answers. *)
Definition unreachable : Platform :=
  {| environ := [(lit "MONGO_URI", lit "mongodb://localhost:27017")];
     json_loads := Sample.loads;
     MongoClient_raises := fun _ _ => None;
     Database_raises := fun _ => None;
     Collection_raises := fun _ => None;
     insert_one_outcome := fun _ _ _ =>
       inl (Exn PyMongoError (lit "localhost:27017: Connection refused")) |}.

(** [MongoClient] raises a PyMongoError: the URI is not one. *)
Definition bad_uri : Platform :=
  {| environ := [(lit "MONGO_URI", lit "mongo//localhost")];
     json_loads := Sample.loads;
     MongoClient_raises := fun _ _ => Some (Exn PyMongoError (lit "Invalid URI scheme"));
     Database_raises := fun _ => None;
     Collection_raises := fun _ => None;
     insert_one_outcome := fun _ _ calls =>
       inr {| inserted_id := Z.of_nat (List.length calls) |} |}.

(** [client[DB_NAME]] raises a PyMongoError: the name holds a space. *)
Definition bad_name : Platform :=
  {| environ := [(lit "MONGO_URI", lit "mongodb://localhost:27017");
                 (lit "DB_NAME", lit "my database")];
     json_loads := Sample.loads;
     MongoClient_raises := fun _ _ => None;
     Database_raises := fun name =>
       if existsb (N.eqb 0x20) name
       then Some (Exn PyMongoError (lit "database names cannot contain the character ' '"))
       else None;
     Collection_raises := fun _ => None;
     insert_one_outcome := fun _ _ calls =>
       inr {| inserted_id := Z.of_nat (List.length calls) |} |}.

(** [insert_one] raises something that is neither a RuntimeError nor a
    PyMongoError, and a driver that raises a RuntimeError of its own. *)
Definition surprising : Platform :=
  {| environ := [(lit "MONGO_URI", lit "mongodb://localhost:27017")];
     json_loads := Sample.loads;
     MongoClient_raises := fun _ _ => None;
     Database_raises := fun _ => None;
     Collection_raises := fun _ => None;
     insert_one_outcome := fun _ _ _ =>
       inl (Exn OtherException (lit "cannot encode object")) |}.
Definition exhausted : Platform :=
  {| environ := [(lit "MONGO_URI", lit "mongodb://localhost:27017")];
     json_loads := Sample.loads;
     MongoClient_raises := fun _ _ => None;
     Database_raises := fun _ => None;
     Collection_raises := fun _ => None;
     insert_one_outcome := fun _ _ _ =>
       inl (Exn RuntimeError (lit "can't start new thread")) |}.

(** A decoder that, like CPython's, takes the text [[NaN]] for a list of
    one float, though NaN is no JSON number; elsewhere the sample decoder. *)
Definition lenient : Platform :=
  {| environ := [];
     json_loads := fun text =>
       if str_eqb text (lit "[NaN]")
       then inr (PList [PFloat 0x7FF8000000000000])
       else Sample.loads text;
     MongoClient_raises := fun _ _ => None;
     Database_raises := fun _ => None;
     Collection_raises := fun _ => None;
     insert_one_outcome := fun _ _ calls =>
       inr {| inserted_id := Z.of_nat (List.length calls) |} |}.

(** [data.json] holds the three bytes 5b ff 5d, which are not UTF-8:
    [f.read()] raises UnicodeDecodeError, a ValueError that is no
    JSONDecodeError. *)
Definition not_utf8 : World :=
  {| mongo_client := None;
     constructed := [];
     insert_calls := [];
     flashes := [];
     data_file_exists := inr true;
     data_file_read :=
       inl (Exn OtherException
              (lit "'utf-8' codec can't decode byte 0xff in position 1: invalid start byte")) |}.

(** The directory of [data.json] cannot be searched: [exists()] itself
    raises PermissionError. *)
Definition hidden : World :=
  {| mongo_client := None;
     constructed := [];
     insert_calls := [];
     flashes := [];
     data_file_exists := inl (Exn OtherException (lit "[Errno 13] Permission denied"));
     data_file_read := inl (Exn OtherException (lit "[Errno 13] Permission denied")) |}.

(** [data.json] is there and cannot be read. *)
Definition locked : World :=
  {| mongo_client := None;
     constructed := [];
     insert_calls := [];
     flashes := [];
     data_file_exists := inr true;
     data_file_read := inl (Exn OtherException (lit "[Errno 13] Permission denied")) |}.

End Outage.


(** * Properties *)

Unset Implicit Arguments.
Arguments lit : simpl never.

(** Unfolds the monad and the imported calls, leaving the module's own
    functions and the string literals folded. *)
Ltac run :=
  cbv beta iota zeta delta
    [bind ret raise try_except gets modify lift guard flash render_template
     DATA_FILE_exists json_load_DATA_FILE insert_one client_getitem database_getitem
     new_MongoClient with_status jsonify redirect error_body form_context
     negb fst snd status body].

(** ** Strings *)

Lemma str_eqb_eq (a b : str) : str_eqb a b = true -> a = b.
Proof.
  revert b; induction a as [|x a IH]; intros [|y b]; simpl; try discriminate.
  - reflexivity.
  - intros E. apply andb_true_iff in E as [Exy Eab].
    apply N.eqb_eq in Exy. rewrite Exy, (IH b Eab). reflexivity.
Qed.

Lemma not_true (s : str) : not_ s = true <-> s = [].
Proof. destruct s; simpl; split; congruence. Qed.

Lemma not_false (s : str) : not_ s = false <-> s <> [].
Proof. destruct s; simpl; split; congruence. Qed.

Lemma lit_empty : lit "" = [].
Proof. reflexivity. Qed.

(** ** Trimming *)

Lemma lstrip_split (s : str) :
  exists pre, s = pre ++ lstrip s /\ forallb isspace pre = true.
Proof.
  induction s as [|c s [pre [Heq Hsp]]]; simpl.
  - exists []. split; reflexivity.
  - destruct (isspace c) eqn:Ec.
    + exists (c :: pre). simpl. rewrite Ec, Hsp. split; [f_equal; exact Heq|reflexivity].
    + exists []. split; reflexivity.
Qed.

Lemma lstrip_head (s r : str) (c : char) :
  lstrip s = c :: r -> isspace c = false.
Proof.
  induction s as [|a s IH]; simpl; [discriminate|].
  destruct (isspace a) eqn:Ea; [exact IH|].
  intros E. injection E as <- _. exact Ea.
Qed.

Lemma lstrip_nil_iff (s : str) : lstrip s = [] <-> forallb isspace s = true.
Proof.
  induction s as [|a s IH]; simpl; [tauto|].
  destruct (isspace a); simpl; [exact IH|]. split; discriminate.
Qed.

(** A character that is not whitespace stops the scan. *)
Lemma lstrip_app_stop (x y : str) (c : char) :
  isspace c = false -> lstrip (x ++ c :: y) = lstrip x ++ c :: y.
Proof.
  intros Hc. induction x as [|a x IH]; simpl.
  - rewrite Hc. reflexivity.
  - destruct (isspace a); [exact IH|reflexivity].
Qed.

Lemma rstrip_cons_stop (c : char) (r : str) :
  isspace c = false -> rstrip (c :: r) = c :: rstrip r.
Proof.
  intros Hc. unfold rstrip. simpl rev at 2.
  rewrite (lstrip_app_stop (rev r) [] c Hc).
  rewrite rev_app_distr. reflexivity.
Qed.

Lemma forallb_rev (p : char -> bool) (s : str) :
  forallb p (rev s) = forallb p s.
Proof.
  induction s as [|a s IH]; simpl; [reflexivity|].
  rewrite forallb_app, IH. simpl. rewrite andb_true_r. apply andb_comm.
Qed.

Lemma rstrip_split (s : str) :
  exists post, s = rstrip s ++ post /\ forallb isspace post = true.
Proof.
  destruct (lstrip_split (rev s)) as [pre [Heq Hsp]].
  exists (rev pre). split.
  - unfold rstrip. rewrite <- rev_app_distr, <- Heq. symmetry. apply rev_involutive.
  - rewrite forallb_rev. exact Hsp.
Qed.

(** [strip] removes a run of whitespace at each end and nothing else. *)
Lemma strip_split (s : str) :
  exists pre post,
    s = pre ++ strip s ++ post
    /\ forallb isspace pre = true /\ forallb isspace post = true.
Proof.
  destruct (lstrip_split s) as [pre [Heq Hpre]].
  destruct (rstrip_split (lstrip s)) as [post [Heq' Hpost]].
  exists pre, post. unfold strip. rewrite <- Heq'. auto.
Qed.

(** What [strip] returns neither starts nor ends with whitespace. *)
Lemma strip_first (s r : str) (c : char) :
  strip s = c :: r -> isspace c = false.
Proof.
  unfold strip. destruct (lstrip s) as [|a t] eqn:El.
  - discriminate.
  - pose proof (lstrip_head s t a El) as Ha.
    rewrite (rstrip_cons_stop a t Ha). intros E. injection E as <- _. exact Ha.
Qed.

Lemma strip_last (s r : str) (c : char) :
  rev (strip s) = c :: r -> isspace c = false.
Proof.
  unfold strip, rstrip. rewrite rev_involutive. apply lstrip_head.
Qed.

(** Empty after trimming: empty, or whitespace throughout. *)
Lemma strip_nil_iff (s : str) : strip s = [] <-> forallb isspace s = true.
Proof.
  split.
  - intros E. destruct (strip_split s) as (pre & post & Heq & Hpre & Hpost).
    rewrite E in Heq. rewrite Heq. simpl. rewrite forallb_app, Hpre, Hpost. reflexivity.
  - intros Hall. apply lstrip_nil_iff in Hall. unfold strip. rewrite Hall. reflexivity.
Qed.

Example strip_both_ends : strip (lit "  Ann ") = lit "Ann".
Proof. reflexivity. Qed.

Example strip_keeps_inner : strip (9 :: lit "a b" ++ [0x3000; 10])%N = lit "a b".
Proof. reflexivity. Qed.

Example strip_blank : strip (lit "   " ++ [0xA0; 13; 10])%N = [].
Proof. reflexivity. Qed.

(** ** Form lookups *)

(** A pair with an empty value, put anywhere into a form that has no
    value under its key, changes no lookup that defaults to the empty
    string. *)
Lemma get_absent_as_empty (f1 f2 : MultiDict) (key k : str) :
  getitem (f1 ++ f2) key = None ->
  get (f1 ++ (key, lit "") :: f2) k (lit "") = get (f1 ++ f2) k (lit "").
Proof.
  unfold get. induction f1 as [|[k' v] f1 IH]; simpl; intros Habs.
  - destruct (str_eqb key k) eqn:E; [|reflexivity].
    apply str_eqb_eq in E. subst k. rewrite Habs. reflexivity.
  - destruct (str_eqb k' key) eqn:E'; [discriminate|].
    destruct (str_eqb k' k); [reflexivity|]. apply IH, Habs.
Qed.

Lemma getitem_None_get (f : MultiDict) (key : str) :
  getitem f key = None -> submitted f key = [].
Proof. unfold submitted, get. intros ->. reflexivity. Qed.

Lemma url_for_success : url_for (lit "success") = ret (lit "/success").
Proof. reflexivity. Qed.

(** ** The lazily created handle *)

Section Handle.
Context {P : Platform}.

Lemma lookup_pure (c : MongoClient) (w : World) : snd (lookup c w) = w.
Proof.
  unfold lookup, client_getitem, database_getitem, bind, guard, raise, ret.
  destruct (Database_raises DB_NAME); [reflexivity|].
  destruct (Collection_raises COLLECTION_NAME); reflexivity.
Qed.

Lemma lookup_client (c : MongoClient) (w w' : World) (coll : Collection) :
  lookup c w = (inr coll, w') -> db_client (coll_database coll) = c.
Proof.
  unfold lookup, client_getitem, database_getitem, bind, guard, raise, ret.
  destruct (Database_raises DB_NAME); [discriminate|].
  destruct (Collection_raises COLLECTION_NAME); [discriminate|].
  intros E. injection E as <- _. reflexivity.
Qed.

Lemma get_mongo_collection_unconfigured (w : World) :
  MONGO_URI = None ->
  get_mongo_collection w =
    (inl (Exn RuntimeError (lit "MONGO_URI is not configured in environment variables.")), w).
Proof. unfold get_mongo_collection. intros ->. reflexivity. Qed.

Lemma get_mongo_collection_reuse (uri : str) (c : MongoClient) (w : World) :
  MONGO_URI = Some uri -> mongo_client w = Some c ->
  get_mongo_collection w = lookup c w.
Proof.
  unfold get_mongo_collection. intros -> Hc.
  unfold bind at 1, gets at 1. rewrite Hc.
  unfold bind at 1, ret at 1. unfold bind at 1, gets at 1. rewrite Hc.
  reflexivity.
Qed.

Lemma get_mongo_collection_first (uri : str) (w : World) :
  MONGO_URI = Some uri -> mongo_client w = None ->
  MongoClient_raises uri 5000 = None ->
  let c := {| client_host := uri; serverSelectionTimeoutMS := 5000;
              client_id := List.length (constructed w) |} in
  get_mongo_collection w = lookup c (set_mongo_client c (add_constructed c w)).
Proof.
  unfold get_mongo_collection. intros -> Hc Hnew. cbv zeta.
  unfold bind at 1, gets at 1. rewrite Hc.
  unfold new_MongoClient. rewrite Hnew. reflexivity.
Qed.

Lemma get_mongo_collection_refused (uri : str) (w : World) (e : exn) :
  MONGO_URI = Some uri -> mongo_client w = None ->
  MongoClient_raises uri 5000 = Some e ->
  get_mongo_collection w = (inl e, w).
Proof.
  unfold get_mongo_collection. intros -> Hc Hnew.
  unfold bind at 1, gets at 1. rewrite Hc.
  unfold new_MongoClient. rewrite Hnew. reflexivity.
Qed.

(** With the handle set, a call changes nothing. *)
Lemma get_mongo_collection_set (c : MongoClient) (w : World) :
  mongo_client w = Some c -> snd (get_mongo_collection w) = w.
Proof.
  intros Hc. destruct MONGO_URI as [uri|] eqn:Huri.
  - rewrite (get_mongo_collection_reuse uri c w Huri Hc). apply lookup_pure.
  - rewrite (get_mongo_collection_unconfigured w Huri). reflexivity.
Qed.

Lemma get_mongo_collection_set_client (c : MongoClient) (w w' : World) (coll : Collection) :
  mongo_client w = Some c -> get_mongo_collection w = (inr coll, w') ->
  db_client (coll_database coll) = c.
Proof.
  intros Hc. destruct MONGO_URI as [uri|] eqn:Huri.
  - rewrite (get_mongo_collection_reuse uri c w Huri Hc). apply lookup_client.
  - rewrite (get_mongo_collection_unconfigured w Huri). discriminate.
Qed.

(** A call touches the handle and the list of clients only. *)
Lemma get_mongo_collection_frame (w : World) :
  let w' := snd (get_mongo_collection w) in
  insert_calls w' = insert_calls w /\ flashes w' = flashes w
  /\ data_file_exists w' = data_file_exists w
  /\ data_file_read w' = data_file_read w.
Proof.
  cbv zeta. destruct (mongo_client w) as [c|] eqn:Hc.
  - rewrite (get_mongo_collection_set c w Hc). repeat split.
  - destruct MONGO_URI as [uri|] eqn:Huri.
    + destruct (MongoClient_raises uri 5000) as [e|] eqn:Hnew.
      * rewrite (get_mongo_collection_refused uri w e Huri Hc Hnew). repeat split.
      * rewrite (get_mongo_collection_first uri w Huri Hc Hnew).
        rewrite lookup_pure. repeat split.
    + rewrite (get_mongo_collection_unconfigured w Huri). repeat split.
Qed.

End Handle.

(** ** GET /api *)

Section Catalog.
Context {P : Platform}.

Lemma api_list_pure (w : World) : snd (api_list w) = w.
Proof.
  unfold api_list. run.
  destruct (data_file_exists w) as [e|[|]]; run; [reflexivity| |reflexivity].
  destruct (data_file_read w) as [e|text]; run.
  - destruct (is_JSONDecodeError e); reflexivity.
  - destruct (json_loads text) as [e|v]; run.
    + destruct (is_JSONDecodeError e); reflexivity.
    + destruct (isinstance_list v); reflexivity.
Qed.

(** C4.  When [data.json] exists and its text decodes to a list,
    [api_list] answers 200 with that very list as the JSON body: same
    elements, same order.  The state is left as it was. *)
Theorem api_list_returns_the_array (w : World) (text : str) (l : list pyobj) :
  data_file_exists w = inr true ->
  data_file_read w = inr text ->
  json_loads text = inr (PList l) ->
  api_list w = (inr {| status := 200; body := Json (PList l) |}, w).
Proof.
  intros Hex Hrd Hjs.
  unfold api_list. run. rewrite Hex. run. rewrite Hrd, Hjs. reflexivity.
Qed.

(** C5.  When [data.json] does not exist, [api_list] answers 200 with the
    empty JSON array, whatever else the state holds. *)
Theorem api_list_missing_file (w : World) :
  data_file_exists w = inr false ->
  api_list w = (inr {| status := 200; body := Json (PList []) |}, w).
Proof.
  intros Hex. unfold api_list. run. rewrite Hex. reflexivity.
Qed.

(** C6.  When [data.json] exists and its text decodes to a value that is
    not a list (a dict, a string, a number, a boolean or None),
    [api_list] answers 500 with the body
    [{"error": "backend file does not contain a JSON list"}]. *)
Theorem api_list_not_a_list (w : World) (text : str) (v : pyobj) :
  data_file_exists w = inr true ->
  data_file_read w = inr text ->
  json_loads text = inr v ->
  (forall l, v <> PList l) ->
  api_list w =
    (inr {| status := 500;
            body := Json (PDict [(lit "error",
                                  PStr (lit "backend file does not contain a JSON list"))]) |},
     w).
Proof.
  intros Hex Hrd Hjs Hnl.
  unfold api_list. run. rewrite Hex. run. rewrite Hrd, Hjs.
  destruct v; try reflexivity. exfalso. eapply Hnl. reflexivity.
Qed.

(** C7, for the files the decoder refuses.  When [data.json] exists, is
    read as UTF-8 text, and the decoder raises JSONDecodeError on that
    text, [api_list] answers 500 with the body
    [{"error": "invalid JSON in backend file"}]. *)
Theorem api_list_invalid_json (w : World) (text : str) (e : exn) :
  data_file_exists w = inr true ->
  data_file_read w = inr text ->
  json_loads text = inl e ->
  exc_type e = JSONDecodeError ->
  api_list w =
    (inr {| status := 500;
            body := Json (PDict [(lit "error", PStr (lit "invalid JSON in backend file"))]) |},
     w).
Proof.
  intros Hex Hrd Hjs Hty.
  unfold api_list. run. rewrite Hex. run. rewrite Hrd, Hjs.
  unfold is_JSONDecodeError. rewrite Hty. reflexivity.
Qed.

(** X20.  When [data.json] exists and reading it raises, or decoding its
    text raises something other than JSONDecodeError, [api_list] answers
    500 with the body [{"error": str(e)}] of that exception. *)
Lemma api_list_other_failure (w : World) (e : exn) :
  data_file_exists w = inr true ->
  (data_file_read w = inl e
   \/ exists text, data_file_read w = inr text /\ json_loads text = inl e) ->
  exc_type e <> JSONDecodeError ->
  api_list w =
    (inr {| status := 500; body := Json (PDict [(lit "error", PStr (exc_str e))]) |}, w).
Proof.
  intros Hex Hfail Hty.
  assert (Hno : is_JSONDecodeError e = false).
  { unfold is_JSONDecodeError. destruct (exc_type e); congruence. }
  unfold api_list. run. rewrite Hex. run.
  destruct Hfail as [Hrd | [text [Hrd Hjs]]].
  - rewrite Hrd, Hno. reflexivity.
  - rewrite Hrd, Hjs, Hno. reflexivity.
Qed.

End Catalog.

(** ** POST /submit *)

Section Submit.
Context {P : Platform}.

(** The two branches of the validation test. *)
Lemma submit_rejected (f : MultiDict) (w : World) :
  submitted f (lit "name") = [] \/ submitted f (lit "email") = [] ->
  submit f w =
    (inr {| status := 400;
            body := Html (lit "form.html")
                      [(lit "name", submitted f (lit "name"));
                       (lit "email", submitted f (lit "email"));
                       (lit "message", submitted f (lit "message"))]
                      (flashes w ++ [(lit "error", lit "Name and email are required.")]) |},
     clear_flashes (add_flash (lit "error") (lit "Name and email are required.") w)).
Proof.
  intros Hbad. unfold submit. fold (submitted f (lit "name")).
  fold (submitted f (lit "email")). fold (submitted f (lit "message")).
  assert (Htest : not_ (submitted f (lit "name")) || not_ (submitted f (lit "email")) = true).
  { apply orb_true_iff. destruct Hbad as [E|E]; [left|right]; apply not_true, E. }
  cbv zeta. rewrite Htest. reflexivity.
Qed.

Lemma submit_accepted (f : MultiDict) (w : World) :
  submitted f (lit "name") <> [] -> submitted f (lit "email") <> [] ->
  let name := submitted f (lit "name") in
  let email := submitted f (lit "email") in
  let message := submitted f (lit "message") in
  let again (notice : str) (st : World) :=
    (inr {| status := 500;
            body := Html (lit "form.html")
                      [(lit "name", name); (lit "email", email); (lit "message", message)]
                      (flashes st ++ [(lit "error", notice)]) |},
     clear_flashes (add_flash (lit "error") notice st)) in
  let failed (e : exn) (st : World) :=
    match exc_type e with
    | RuntimeError => again (lit "Server configuration error: " ++ exc_str e) st
    | PyMongoError => again (lit "Database error: " ++ exc_str e) st
    | _ => again (lit "Unexpected error: " ++ exc_str e) st
    end in
  submit f w =
    match get_mongo_collection w with
    | (inl e, w1) => failed e w1
    | (inr coll, w1) =>
        let doc := [(lit "name", name); (lit "email", email); (lit "message", message)] in
        match insert_one_outcome coll doc (insert_calls w1) with
        | inl e => failed e (add_insert_call coll doc w1)
        | inr _ =>
            (inr {| status := 302; body := Location (lit "/success") |},
             add_insert_call coll doc w1)
        end
    end.
Proof.
  intros Hn He. cbv zeta. unfold submit.
  fold (submitted f (lit "name")). fold (submitted f (lit "email")).
  fold (submitted f (lit "message")).
  apply not_false in Hn, He. rewrite Hn, He.
  cbv beta iota zeta delta [orb]. rewrite url_for_success.
  unfold try_except, bind at 1.
  destruct (get_mongo_collection w) as [[e|coll] w1].
  - unfold is_RuntimeError, is_PyMongoError. destruct (exc_type e); reflexivity.
  - unfold bind at 1, insert_one at 1.
    destruct (insert_one_outcome _ _ _) as [e|res].
    + unfold is_RuntimeError, is_PyMongoError. destruct (exc_type e); reflexivity.
    + reflexivity.
Qed.

(** C1.  When the trimmed name and email are both non-empty, the
    collection is obtained and [insert_one] returns, [submit] makes
    exactly one [insert_one] call, on the document
    [{name, email, message}] of the three trimmed values (message possibly
    empty), flashes nothing, and answers 302 with Location [/success] and
    nothing else: the response is the same whatever [InsertOneResult] the
    driver returned. *)
Theorem submit_stores_and_redirects
    (f : MultiDict) (w w1 : World) (coll : Collection) (res : InsertOneResult) :
  strip (get f (lit "name") (lit "")) <> [] ->
  strip (get f (lit "email") (lit "")) <> [] ->
  get_mongo_collection w = (inr coll, w1) ->
  insert_one_outcome coll
    [(lit "name", strip (get f (lit "name") (lit "")));
     (lit "email", strip (get f (lit "email") (lit "")));
     (lit "message", strip (get f (lit "message") (lit "")))]
    (insert_calls w1) = inr res ->
  exists w',
    submit f w = (inr {| status := 302; body := Location (lit "/success") |}, w')
    /\ insert_calls w' =
         insert_calls w ++
           [(coll, [(lit "name", strip (get f (lit "name") (lit "")));
                    (lit "email", strip (get f (lit "email") (lit "")));
                    (lit "message", strip (get f (lit "message") (lit "")))])]
    /\ flashes w' = flashes w.
Proof.
  intros Hn He Hcoll Hins.
  pose proof (get_mongo_collection_frame w) as Hframe.
  rewrite Hcoll in Hframe. cbv zeta in Hframe. simpl in Hframe.
  destruct Hframe as (Hcalls & Hfl & _).
  rewrite (submit_accepted f w Hn He). rewrite Hcoll.
  unfold submitted. cbv zeta. rewrite Hins.
  eexists. split; [reflexivity|]. simpl. rewrite Hcalls, Hfl. split; reflexivity.
Qed.

(** C2.  When the trimmed name or the trimmed email is empty, [submit]
    answers 400 with the form template, filled with the three trimmed
    values and shown the notice "Name and email are required." after any
    notice already pending; no [insert_one] call is made. *)
Theorem submit_rejects_missing_fields (f : MultiDict) (w : World) :
  strip (get f (lit "name") (lit "")) = [] \/ strip (get f (lit "email") (lit "")) = [] ->
  exists w',
    submit f w =
      (inr {| status := 400;
              body := Html (lit "form.html")
                        [(lit "name", strip (get f (lit "name") (lit "")));
                         (lit "email", strip (get f (lit "email") (lit "")));
                         (lit "message", strip (get f (lit "message") (lit "")))]
                        (flashes w ++ [(lit "error", lit "Name and email are required.")]) |},
       w')
    /\ insert_calls w' = insert_calls w.
Proof.
  intros Hbad. rewrite (submit_rejected f w Hbad).
  eexists. split; reflexivity.
Qed.

(** C3, as the module has it.  When the trimmed name and email are both
    non-empty and MONGO_URI is unset, [get_mongo_collection] raises a
    RuntimeError whose text is
    "MONGO_URI is not configured in environment variables."; [submit]
    answers 500 with the form template, filled with the three trimmed
    values and shown the notice "Server configuration error: " followed by
    that text; no [insert_one] call is made, no client is constructed and
    the handle is left as it was. *)
Theorem submit_without_connection_string (f : MultiDict) (w : World) :
  strip (get f (lit "name") (lit "")) <> [] ->
  strip (get f (lit "email") (lit "")) <> [] ->
  MONGO_URI = None ->
  get_mongo_collection w =
    (inl (Exn RuntimeError (lit "MONGO_URI is not configured in environment variables.")), w)
  /\ exists w',
       submit f w =
         (inr {| status := 500;
                 body := Html (lit "form.html")
                           [(lit "name", strip (get f (lit "name") (lit "")));
                            (lit "email", strip (get f (lit "email") (lit "")));
                            (lit "message", strip (get f (lit "message") (lit "")))]
                           (flashes w ++
                            [(lit "error",
                              lit "Server configuration error: MONGO_URI is not configured in environment variables.")]) |},
          w')
       /\ insert_calls w' = insert_calls w
       /\ constructed w' = constructed w
       /\ mongo_client w' = mongo_client w.
Proof.
  intros Hn He Huri.
  pose proof (get_mongo_collection_unconfigured w Huri) as Hraise.
  split; [exact Hraise|].
  rewrite (submit_accepted f w Hn He). rewrite Hraise.
  eexists. split; [reflexivity|]. repeat split.
Qed.

(** C9.  A form that has no value under [key] is handled exactly as the
    same form with an empty value under [key], wherever that pair is put:
    same response, same final state.  Hence a form without name or
    without email is answered 400, and a form without message whose
    trimmed name and email are non-empty leads, once the collection is
    obtained, to one [insert_one] call on a document whose message is the
    empty string. *)
Theorem submit_absent_field_as_empty (f1 f2 : MultiDict) (key : str) (w : World) :
  getitem (f1 ++ f2) key = None ->
  submit (f1 ++ (key, lit "") :: f2) w = submit (f1 ++ f2) w
  /\ (key = lit "name" \/ key = lit "email" ->
      exists page w',
        submit (f1 ++ f2) w = (inr {| status := 400; body := page |}, w')
        /\ insert_calls w' = insert_calls w)
  /\ (key = lit "message" ->
      strip (get (f1 ++ f2) (lit "name") (lit "")) <> [] ->
      strip (get (f1 ++ f2) (lit "email") (lit "")) <> [] ->
      forall coll w1, get_mongo_collection w = (inr coll, w1) ->
      insert_calls (snd (submit (f1 ++ f2) w)) =
        insert_calls w ++
          [(coll, [(lit "name", strip (get (f1 ++ f2) (lit "name") (lit "")));
                   (lit "email", strip (get (f1 ++ f2) (lit "email") (lit "")));
                   (lit "message", lit "")])]).
Proof.
  intros Habs. split; [|split].
  - unfold submit. rewrite !(fun k => get_absent_as_empty f1 f2 key k Habs). reflexivity.
  - intros Hkey.
    assert (Hbad : submitted (f1 ++ f2) (lit "name") = []
                   \/ submitted (f1 ++ f2) (lit "email") = []).
    { destruct Hkey as [-> | ->]; [left|right]; apply getitem_None_get, Habs. }
    rewrite (submit_rejected _ w Hbad). do 2 eexists. split; reflexivity.
  - intros -> Hn He coll w1 Hcoll.
    pose proof (get_mongo_collection_frame w) as Hframe.
    rewrite Hcoll in Hframe. cbv zeta in Hframe. simpl in Hframe.
    destruct Hframe as (Hcalls & _).
    rewrite (submit_accepted _ w Hn He). rewrite Hcoll.
    rewrite (getitem_None_get _ _ Habs). rewrite lit_empty. unfold submitted.
    cbv zeta.
    destruct (insert_one_outcome _ _ _) as [e|res]; [destruct (exc_type e)|];
      simpl; rewrite Hcalls; reflexivity.
Qed.

End Submit.

(** ** The process *)

Section Process.
Context {P : Platform}.

(** C10.  When the trimmed name or the trimmed email is empty, [submit]
    leaves the handle as it was (unset if it was unset) and constructs no
    client; its response and final state do not depend on the platform at
    all, so neither the configuration nor the driver is consulted. *)
Theorem submit_rejection_spares_handle (f : MultiDict) (w : World) :
  strip (get f (lit "name") (lit "")) = [] \/ strip (get f (lit "email") (lit "")) = [] ->
  mongo_client (snd (submit f w)) = mongo_client w
  /\ (mongo_client w = None -> mongo_client (snd (submit f w)) = None)
  /\ constructed (snd (submit f w)) = constructed w
  /\ forall Q : Platform, @submit Q f w = @submit P f w.
Proof.
  intros Hbad. rewrite (submit_rejected f w Hbad). repeat split.
  - intros Hnone. exact Hnone.
  - intros Q. apply (@submit_rejected Q f w Hbad).
Qed.

Lemma submit_keeps_handle (f : MultiDict) (w : World) (c : MongoClient) :
  mongo_client w = Some c ->
  mongo_client (snd (submit f w)) = Some c
  /\ constructed (snd (submit f w)) = constructed w.
Proof.
  intros Hc.
  destruct (submitted f (lit "name")) as [|a n] eqn:En.
  { rewrite (submit_rejected f w (or_introl En)). split; [exact Hc|reflexivity]. }
  destruct (submitted f (lit "email")) as [|b m] eqn:Em.
  { rewrite (submit_rejected f w (or_intror Em)). split; [exact Hc|reflexivity]. }
  assert (Hn : submitted f (lit "name") <> []) by (rewrite En; discriminate).
  assert (He : submitted f (lit "email") <> []) by (rewrite Em; discriminate).
  rewrite (submit_accepted f w Hn He). cbv zeta.
  pose proof (get_mongo_collection_set c w Hc) as Hsame.
  destruct (get_mongo_collection w) as [[e|coll] w1]; simpl in Hsame; subst w1.
  - destruct (exc_type e); split; first [exact Hc|reflexivity].
  - destruct (insert_one_outcome _ _ _) as [e|res]; [destruct (exc_type e)|];
      split; first [exact Hc|reflexivity].
Qed.

(** Whichever branch [submit] takes, the handle and the list of clients
    end as [get_mongo_collection] left them, or as they were. *)
Lemma submit_handle (f : MultiDict) (w : World) :
  let w' := snd (submit f w) in
  (mongo_client w' = mongo_client w /\ constructed w' = constructed w)
  \/ (mongo_client w' = mongo_client (snd (get_mongo_collection w))
      /\ constructed w' = constructed (snd (get_mongo_collection w))).
Proof.
  cbv zeta.
  destruct (submitted f (lit "name")) as [|a n] eqn:En.
  { rewrite (submit_rejected f w (or_introl En)). left. split; reflexivity. }
  destruct (submitted f (lit "email")) as [|b m] eqn:Em.
  { rewrite (submit_rejected f w (or_intror Em)). left. split; reflexivity. }
  assert (Hn : submitted f (lit "name") <> []) by (rewrite En; discriminate).
  assert (He : submitted f (lit "email") <> []) by (rewrite Em; discriminate).
  rewrite (submit_accepted f w Hn He). cbv zeta. right.
  destruct (get_mongo_collection w) as [[e|coll] w1].
  - destruct (exc_type e); split; reflexivity.
  - destruct (insert_one_outcome _ _ _) as [e|res]; [destruct (exc_type e)|];
      split; reflexivity.
Qed.

Lemma get_mongo_collection_at_most_one (w : World) :
  at_most_one_client w -> at_most_one_client (snd (get_mongo_collection w)).
Proof.
  unfold at_most_one_client. intros Hinv.
  destruct (mongo_client w) as [c|] eqn:Hc.
  - rewrite (get_mongo_collection_set c w Hc). rewrite Hc. exact Hinv.
  - destruct MONGO_URI as [uri|] eqn:Huri.
    + destruct (MongoClient_raises uri 5000) as [e|] eqn:Hnew.
      * rewrite (get_mongo_collection_refused uri w e Huri Hc Hnew).
        simpl. rewrite Hc. exact Hinv.
      * rewrite (get_mongo_collection_first uri w Huri Hc Hnew).
        rewrite lookup_pure. simpl. rewrite Hinv. reflexivity.
    + rewrite (get_mongo_collection_unconfigured w Huri).
      simpl. rewrite Hc. exact Hinv.
Qed.

Lemma dispatch_request_at_most_one (r : Request) (w : World) :
  at_most_one_client w -> at_most_one_client (snd (dispatch_request r w)).
Proof.
  intros Hinv. destruct r; simpl.
  - rewrite api_list_pure. exact Hinv.
  - exact Hinv.
  - pose proof (get_mongo_collection_at_most_one w Hinv) as Hcall.
    unfold at_most_one_client in *.
    destruct (submit_handle request_form w) as [[H1 H2] | [H1 H2]];
      rewrite H1, H2; assumption.
  - exact Hinv.
Qed.

(** X19.  Serving one request after another, a process never holds more
    than one client: from a state in which the handle and the record of
    constructed clients agree (none yet, or the one the handle holds),
    every list of requests served in turn leads to such a state again.
    (First calls that overlap can each construct a client.) *)
Lemma serve_at_most_one (rs : list (Request * Ambient)) (w : World) :
  at_most_one_client w -> at_most_one_client (snd (serve rs w)).
Proof.
  revert w. induction rs as [|[r a] rs IH]; intros w Hinv; simpl.
  - exact Hinv.
  - assert (Hin : at_most_one_client (enter a w)) by exact Hinv.
    pose proof (dispatch_request_at_most_one r (enter a w) Hin) as Hstep.
    destruct (dispatch_request r (enter a w)) as [out w1]. simpl in Hstep.
    pose proof (IH w1 Hstep) as Hrest.
    destruct (serve rs w1) as [outs w2]. exact Hrest.
Qed.

(** The one exception a view lets through is the one that
    [DATA_FILE.exists()] raises in [api_list], before its [try]. *)
Lemma dispatch_request_returns (r : Request) (w : World) :
  (exists resp, fst (dispatch_request r w) = inr resp)
  \/ (exists e,
        r = GET_api /\ data_file_exists w = inl e
        /\ fst (dispatch_request r w) = inl e).
Proof.
  destruct r; simpl.
  - unfold api_list. run.
    destruct (data_file_exists w) as [e|[|]]; run.
    + right. exists e. repeat split.
    + left. destruct (data_file_read w) as [e|text]; run.
      * destruct (is_JSONDecodeError e); eexists; reflexivity.
      * destruct (json_loads text) as [e|v]; run.
        -- destruct (is_JSONDecodeError e); eexists; reflexivity.
        -- destruct (isinstance_list v); eexists; reflexivity.
    + left. eexists; reflexivity.
  - left. eexists; reflexivity.
  - left.
    destruct (submitted request_form (lit "name")) as [|a n] eqn:En.
    { rewrite (submit_rejected request_form w (or_introl En)). eexists; reflexivity. }
    destruct (submitted request_form (lit "email")) as [|b m] eqn:Em.
    { rewrite (submit_rejected request_form w (or_intror Em)). eexists; reflexivity. }
    assert (Hn : submitted request_form (lit "name") <> []) by (rewrite En; discriminate).
    assert (He : submitted request_form (lit "email") <> []) by (rewrite Em; discriminate).
    rewrite (submit_accepted request_form w Hn He). cbv zeta.
    destruct (get_mongo_collection w) as [[e|coll] w1].
    + destruct (exc_type e); eexists; reflexivity.
    + destruct (insert_one_outcome _ _ _) as [e|res]; [destruct (exc_type e)|];
        eexists; reflexivity.
  - left. eexists; reflexivity.
Qed.

Lemma dispatch_request_keeps_handle (r : Request) (w : World) (c : MongoClient) :
  mongo_client w = Some c ->
  mongo_client (snd (dispatch_request r w)) = Some c
  /\ constructed (snd (dispatch_request r w)) = constructed w.
Proof.
  intros Hc. destruct r; simpl.
  - rewrite api_list_pure. split; [exact Hc|reflexivity].
  - split; [exact Hc|reflexivity].
  - apply submit_keeps_handle, Hc.
  - split; [exact Hc|reflexivity].
Qed.

Lemma serve_keeps_handle (rs : list (Request * Ambient)) (w : World) (c : MongoClient) :
  mongo_client w = Some c ->
  mongo_client (snd (serve rs w)) = Some c
  /\ constructed (snd (serve rs w)) = constructed w.
Proof.
  revert w. induction rs as [|[r a] rs IH]; intros w Hc; simpl.
  - split; [exact Hc|reflexivity].
  - destruct (dispatch_request_keeps_handle r (enter a w) c Hc) as [H1 H2].
    destruct (dispatch_request r (enter a w)) as [out w1]. simpl in H1, H2.
    destruct (IH w1 H1) as [H3 H4].
    destruct (serve rs w1) as [outs w2]. simpl in *.
    split; [exact H3|congruence].
Qed.

(** *** Overlapping calls *)









End Process.

(** ** Runs on the sample platform *)

Lemma submit_stores_and_redirects_witness :
  exists w',
    @submit Sample.configured Sample.ann_form Sample.boot =
      (inr {| status := 302; body := Location (lit "/success") |}, w')
    /\ insert_calls w' =
         [(Sample.submissions,
           [(lit "name", lit "Ann"); (lit "email", lit "ann@x.com"); (lit "message", lit "")])]
    /\ flashes w' = [].
Proof.
  apply (@submit_stores_and_redirects Sample.configured Sample.ann_form Sample.boot
           (set_mongo_client Sample.client0 (add_constructed Sample.client0 Sample.boot))
           Sample.submissions {| inserted_id := 0%Z |}).
  - vm_compute. discriminate.
  - vm_compute. discriminate.
  - vm_compute. reflexivity.
  - vm_compute. reflexivity.
Defined.

Lemma submit_rejects_missing_fields_witness :
  exists w',
    @submit Sample.configured Sample.nameless_form Sample.boot =
      (inr {| status := 400;
              body := Html (lit "form.html")
                        [(lit "name", lit ""); (lit "email", lit "x@y.com");
                         (lit "message", lit "hi")]
                        [(lit "error", lit "Name and email are required.")] |},
       w')
    /\ insert_calls w' = [].
Proof.
  apply (@submit_rejects_missing_fields Sample.configured Sample.nameless_form Sample.boot).
  left. vm_compute. reflexivity.
Defined.

Lemma submit_without_connection_string_witness :
  @get_mongo_collection Sample.unconfigured Sample.boot =
    (inl (Exn RuntimeError (lit "MONGO_URI is not configured in environment variables.")),
     Sample.boot)
  /\ exists w',
       @submit Sample.unconfigured Sample.ann_form Sample.boot =
         (inr {| status := 500;
                 body := Html (lit "form.html")
                           [(lit "name", lit "Ann"); (lit "email", lit "ann@x.com");
                            (lit "message", lit "")]
                           [(lit "error",
                             lit "Server configuration error: MONGO_URI is not configured in environment variables.")] |},
          w')
       /\ insert_calls w' = []
       /\ constructed w' = []
       /\ mongo_client w' = None.
Proof.
  apply (@submit_without_connection_string Sample.unconfigured Sample.ann_form Sample.boot).
  - vm_compute. discriminate.
  - vm_compute. discriminate.
  - vm_compute. reflexivity.
Defined.

(** C3, with the text the specification quotes, does not hold: on the
    unconfigured platform the exception [get_mongo_collection] raises does
    not carry the text "connection string not configured". *)
Lemma configuration_error_text_differs :
  ~ (exists e w',
       @get_mongo_collection Sample.unconfigured Sample.boot = (inl e, w')
       /\ exc_str e = lit "connection string not configured").
Proof.
  intros (e & w' & Hcall & Htext).
  vm_compute in Hcall. injection Hcall as <- _.
  vm_compute in Htext. discriminate Htext.
Qed.

Lemma api_list_returns_the_array_witness :
  @api_list Sample.configured (Sample.boot_with Sample.catalog_text) =
    (inr {| status := 200;
            body := Json (PList [PDict [(lit "id", PInt 1); (lit "name", PStr (lit "A"))]]) |},
     Sample.boot_with Sample.catalog_text).
Proof.
  apply (@api_list_returns_the_array Sample.configured
           (Sample.boot_with Sample.catalog_text) Sample.catalog_text).
  - reflexivity.
  - reflexivity.
  - vm_compute. reflexivity.
Defined.

Lemma api_list_missing_file_witness :
  @api_list Sample.configured Sample.boot =
    (inr {| status := 200; body := Json (PList []) |}, Sample.boot).
Proof.
  apply (@api_list_missing_file Sample.configured Sample.boot). reflexivity.
Defined.

Lemma api_list_not_a_list_witness :
  @api_list Sample.configured (Sample.boot_with Sample.object_text) =
    (inr {| status := 500;
            body := Json (PDict [(lit "error",
                                  PStr (lit "backend file does not contain a JSON list"))]) |},
     Sample.boot_with Sample.object_text).
Proof.
  apply (@api_list_not_a_list Sample.configured
           (Sample.boot_with Sample.object_text) Sample.object_text
           (PDict [(lit "id", PInt 1)])).
  - reflexivity.
  - reflexivity.
  - vm_compute. reflexivity.
  - intros l. discriminate.
Defined.

Lemma api_list_invalid_json_witness :
  @api_list Sample.configured (Sample.boot_with Sample.malformed_text) =
    (inr {| status := 500;
            body := Json (PDict [(lit "error", PStr (lit "invalid JSON in backend file"))]) |},
     Sample.boot_with Sample.malformed_text).
Proof.
  apply (@api_list_invalid_json Sample.configured
           (Sample.boot_with Sample.malformed_text) Sample.malformed_text
           (Exn JSONDecodeError (lit "Expecting value"))).
  - reflexivity.
  - reflexivity.
  - vm_compute. reflexivity.
  - reflexivity.
Defined.


Lemma submit_absent_field_as_empty_witness :
  @submit Sample.configured (Sample.short_form ++ [(lit "message", lit "")]) Sample.boot =
    @submit Sample.configured Sample.short_form Sample.boot
  /\ insert_calls (snd (@submit Sample.configured Sample.short_form Sample.boot)) =
       [(Sample.submissions,
         [(lit "name", lit "Ann"); (lit "email", lit "ann@x.com"); (lit "message", lit "")])].
Proof.
  destruct (@submit_absent_field_as_empty Sample.configured
              Sample.short_form [] (lit "message") Sample.boot) as (Hsame & _ & Hdoc).
  - vm_compute. reflexivity.
  - split.
    + exact Hsame.
    + rewrite app_nil_r in Hdoc.
      apply (Hdoc eq_refl) with
        (w1 := set_mongo_client Sample.client0 (add_constructed Sample.client0 Sample.boot)).
      * vm_compute. discriminate.
      * vm_compute. discriminate.
      * vm_compute. reflexivity.
Defined.

Lemma submit_rejection_spares_handle_witness :
  mongo_client (snd (@submit Sample.configured Sample.nameless_form Sample.boot)) = None
  /\ constructed (snd (@submit Sample.configured Sample.nameless_form Sample.boot)) = [].
Proof.
  destruct (@submit_rejection_spares_handle Sample.configured
              Sample.nameless_form Sample.boot) as (_ & Hnone & Hcons & _).
  - left. vm_compute. reflexivity.
  - split; [apply Hnone; reflexivity | exact Hcons].
Defined.

(** C7, for every file that is not valid JSON text, does not hold.  A
    [data.json] whose bytes are not UTF-8, and so no JSON text, exists and
    yields no text at all; [api_list] answers it from the generic clause,
    with the text of the UnicodeDecodeError and not with
    "invalid JSON in backend file". *)
Lemma undecodable_file_gets_the_generic_body :
  data_file_exists Outage.not_utf8 = inr true
  /\ (forall text, data_file_read Outage.not_utf8 <> inr text)
  /\ @api_list Sample.configured Outage.not_utf8 =
       (inr {| status := 500;
               body := Json (PDict [(lit "error",
                        PStr (lit "'utf-8' codec can't decode byte 0xff in position 1: invalid start byte"))]) |},
        Outage.not_utf8)
  /\ @api_list Sample.configured Outage.not_utf8 <>
       (inr {| status := 500;
               body := Json (PDict [(lit "error", PStr (lit "invalid JSON in backend file"))]) |},
        Outage.not_utf8).
Proof.
  split; [reflexivity|]. split; [intros text; discriminate|].
  split; [vm_compute; reflexivity|].
  vm_compute. discriminate.
Qed.

(** Nor is every text outside the JSON grammar refused: what the decoder
    accepts beyond it is served. *)
Example nan_is_served :
  @api_list Outage.lenient (Sample.boot_with (lit "[NaN]")) =
    (inr {| status := 200; body := Json (PList [PFloat 0x7FF8000000000000]) |},
     Sample.boot_with (lit "[NaN]")).
Proof. vm_compute. reflexivity. Qed.

(** What [DATA_FILE.exists()] raises leaves [api_list]. *)
Example exists_failure_escapes :
  @api_list Sample.configured Outage.hidden =
    (inl (Exn OtherException (lit "[Errno 13] Permission denied")), Outage.hidden).
Proof. reflexivity. Qed.


(** * Beyond the claims *)

(** ** More on trimming and on form lookups *)

Lemma str_eqb_refl (a : str) : str_eqb a a = true.
Proof.
  induction a as [|x a IH]; simpl; [reflexivity|].
  rewrite N.eqb_refl, IH. reflexivity.
Qed.

Lemma str_eqb_neq (a b : str) : a <> b -> str_eqb a b = false.
Proof.
  intros Hne. destruct (str_eqb a b) eqn:E; [|reflexivity].
  exfalso. apply Hne, str_eqb_eq, E.
Qed.

Lemma lstrip_pad (pre s : str) :
  forallb isspace pre = true -> lstrip (pre ++ s) = lstrip s.
Proof.
  induction pre as [|a pre IH]; simpl; [reflexivity|].
  intros Hall. apply andb_true_iff in Hall as [Ha Hpre].
  rewrite Ha. apply IH, Hpre.
Qed.

Lemma rstrip_pad (s post : str) :
  forallb isspace post = true -> rstrip (s ++ post) = rstrip s.
Proof.
  intros Hall. unfold rstrip. rewrite rev_app_distr.
  rewrite lstrip_pad; [reflexivity|]. rewrite forallb_rev. exact Hall.
Qed.

(** Whitespace put around a string is what [strip] takes off again. *)
Lemma strip_pad (pre s post : str) :
  forallb isspace pre = true -> forallb isspace post = true ->
  strip (pre ++ s ++ post) = strip s.
Proof.
  intros Hpre Hpost. unfold strip. rewrite (lstrip_pad pre (s ++ post) Hpre).
  destruct (lstrip_split s) as [a [Heq Ha]].
  destruct (lstrip s) as [|c y] eqn:El.
  - assert (Hs : forallb isspace s = true) by (apply lstrip_nil_iff, El).
    assert (Hboth : lstrip (s ++ post) = []).
    { apply lstrip_nil_iff. rewrite forallb_app, Hs, Hpost. reflexivity. }
    rewrite Hboth. reflexivity.
  - pose proof (lstrip_head s y c El) as Hc.
    rewrite Heq at 1. rewrite <- app_assoc. simpl.
    rewrite (lstrip_app_stop a (y ++ post) c Hc).
    assert (Hnil : lstrip a = []) by (apply lstrip_nil_iff, Ha).
    rewrite Hnil. simpl. apply (rstrip_pad (c :: y) post Hpost).
Qed.

(** Trimming a second time changes nothing. *)
Lemma strip_idempotent (s : str) : strip (strip s) = strip s.
Proof.
  assert (Hl : lstrip (strip s) = strip s).
  { destruct (strip s) as [|c r] eqn:E; [reflexivity|].
    simpl. rewrite (strip_first s r c E). reflexivity. }
  unfold strip at 1. rewrite Hl. unfold rstrip.
  destruct (rev (strip s)) as [|c r] eqn:E.
  - apply (f_equal (@rev char)) in E. rewrite rev_involutive in E.
    rewrite E. reflexivity.
  - simpl lstrip. rewrite (strip_last s r c E).
    rewrite <- E. apply rev_involutive.
Qed.

(** A pair under another key changes no lookup. *)
Lemma getitem_other_key (f1 f2 : MultiDict) (key k v : str) :
  str_eqb key k = false ->
  getitem (f1 ++ (key, v) :: f2) k = getitem (f1 ++ f2) k.
Proof.
  intros Hne. induction f1 as [|[k' x] f1 IH]; simpl.
  - rewrite Hne. reflexivity.
  - destruct (str_eqb k' k); [reflexivity|exact IH].
Qed.

(** A pair behind an earlier one under the same key changes no lookup. *)
Lemma getitem_shadowed (f1 f2 : MultiDict) (key k v v' : str) :
  getitem f1 key = Some v ->
  getitem (f1 ++ (key, v') :: f2) k = getitem (f1 ++ f2) k.
Proof.
  induction f1 as [|[k' x] f1 IH]; simpl; [discriminate|].
  destruct (str_eqb k' key) eqn:Ekey.
  - intros _. apply str_eqb_eq in Ekey. subst k'.
    destruct (str_eqb key k) eqn:Ek; [reflexivity|].
    apply getitem_other_key, Ek.
  - intros Hin. destruct (str_eqb k' k); [reflexivity|]. apply IH, Hin.
Qed.

(** Padding one value with whitespace changes no trimmed lookup. *)
Lemma submitted_padded (f1 f2 : MultiDict) (key k pre v post : str) :
  forallb isspace pre = true -> forallb isspace post = true ->
  submitted (f1 ++ (key, pre ++ v ++ post) :: f2) k = submitted (f1 ++ (key, v) :: f2) k.
Proof.
  intros Hpre Hpost. unfold submitted, get.
  induction f1 as [|[k' x] f1 IH]; simpl.
  - destruct (str_eqb key k); [|reflexivity]. apply strip_pad; assumption.
  - destruct (str_eqb k' k); [reflexivity|exact IH].
Qed.

(** ** More on the handle *)

Section HandleEdges.
Context {P : Platform}.

Lemma lookup_returns (c : MongoClient) (w w' : World) (coll : Collection) :
  lookup c w = (inr coll, w') ->
  coll = {| coll_database := {| db_client := c; db_name := DB_NAME |};
            coll_name := COLLECTION_NAME |}
  /\ w' = w.
Proof.
  unfold lookup. run.
  destruct (Database_raises DB_NAME); [discriminate|].
  destruct (Collection_raises COLLECTION_NAME); [discriminate|].
  intros E. injection E as <- <-. split; reflexivity.
Qed.

Lemma lookup_raises (c : MongoClient) (w : World) (e : exn) :
  Database_raises DB_NAME = Some e
  \/ (Database_raises DB_NAME = None /\ Collection_raises COLLECTION_NAME = Some e) ->
  lookup c w = (inl e, w).
Proof.
  unfold lookup. run. intros [Hd | [Hd Hc]].
  - rewrite Hd. reflexivity.
  - rewrite Hd, Hc. reflexivity.
Qed.

(** What a call that returns has returned, and how it left the handle. *)
Lemma get_mongo_collection_returns (w w' : World) (coll : Collection) :
  get_mongo_collection w = (inr coll, w') ->
  exists c,
    coll = {| coll_database := {| db_client := c; db_name := DB_NAME |};
              coll_name := COLLECTION_NAME |}
    /\ mongo_client w' = Some c
    /\ MONGO_URI <> None.
Proof.
  destruct MONGO_URI as [uri|] eqn:Huri.
  2:{ rewrite (get_mongo_collection_unconfigured w Huri). discriminate. }
  destruct (mongo_client w) as [c|] eqn:Hc.
  - rewrite (get_mongo_collection_reuse uri c w Huri Hc). intros Hret.
    destruct (lookup_returns c w w' coll Hret) as [-> ->].
    exists c. repeat split; [exact Hc|discriminate].
  - destruct (MongoClient_raises uri 5000) as [e|] eqn:Hnew.
    + rewrite (get_mongo_collection_refused uri w e Huri Hc Hnew). discriminate.
    + rewrite (get_mongo_collection_first uri w Huri Hc Hnew). cbv zeta. intros Hret.
      apply lookup_returns in Hret as [-> ->].
      eexists. repeat split. discriminate.
Qed.

(** X1.  When the [MongoClient] constructor raises, the exception leaves
    [get_mongo_collection] as it is, the handle stays unset and no client
    is on record: the failure is not remembered, and the next call starts
    from the same state. *)
Theorem construction_failure_is_not_cached (uri : str) (w : World) (e : exn) :
  MONGO_URI = Some uri ->
  mongo_client w = None ->
  MongoClient_raises uri 5000 = Some e ->
  get_mongo_collection w = (inl e, w)
  /\ mongo_client (snd (get_mongo_collection w)) = None
  /\ get_mongo_collection (snd (get_mongo_collection w)) = get_mongo_collection w.
Proof.
  intros Huri Hnone Hnew.
  rewrite (get_mongo_collection_refused uri w e Huri Hnone Hnew). simpl.
  rewrite (get_mongo_collection_refused uri w e Huri Hnone Hnew).
  repeat split. exact Hnone.
Qed.

(** X2.  The handle is assigned before the database and the collection are
    looked up: when [client[DB_NAME]] or [db[COLLECTION_NAME]] raises on
    the first call, the exception leaves [get_mongo_collection], and yet
    the new client is in the handle and on record. *)
Theorem handle_is_set_before_the_lookup (uri : str) (w : World) (e : exn) :
  MONGO_URI = Some uri ->
  mongo_client w = None ->
  MongoClient_raises uri 5000 = None ->
  Database_raises DB_NAME = Some e
  \/ (Database_raises DB_NAME = None /\ Collection_raises COLLECTION_NAME = Some e) ->
  exists w',
    get_mongo_collection w = (inl e, w')
    /\ mongo_client w' =
         Some {| client_host := uri; serverSelectionTimeoutMS := 5000;
                 client_id := List.length (constructed w) |}
    /\ constructed w' =
         constructed w ++
           [{| client_host := uri; serverSelectionTimeoutMS := 5000;
               client_id := List.length (constructed w) |}].
Proof.
  intros Huri Hnone Hnew Hbad.
  rewrite (get_mongo_collection_first uri w Huri Hnone Hnew). cbv zeta.
  rewrite (lookup_raises _ _ e Hbad).
  eexists. split; [reflexivity|]. split; reflexivity.
Qed.

(** X3.  A call that returns has returned the collection named by
    COLLECTION_NAME in the database named by DB_NAME (from the
    environment, or [submissions] and [mydatabase] when unset there), on
    the client the handle holds after the call; and MONGO_URI is set. *)
Theorem get_mongo_collection_returns_the_configured_collection
    (w w' : World) (coll : Collection) :
  get_mongo_collection w = (inr coll, w') ->
  db_name (coll_database coll) =
    match getitem environ (lit "DB_NAME") with
    | Some d => d
    | None => lit "mydatabase"
    end
  /\ coll_name coll =
       match getitem environ (lit "COLLECTION_NAME") with
       | Some n => n
       | None => lit "submissions"
       end
  /\ mongo_client w' = Some (db_client (coll_database coll))
  /\ exists uri, getitem environ (lit "MONGO_URI") = Some uri.
Proof.
  intros Hret.
  destruct (get_mongo_collection_returns w w' coll Hret) as (c & -> & Hc & Huri).
  simpl. repeat split.
  - exact Hc.
  - unfold MONGO_URI, environ_get in Huri.
    destruct (getitem environ (lit "MONGO_URI")) as [uri|]; [|congruence].
    exists uri. reflexivity.
Qed.

End HandleEdges.

(** ** More on GET /api *)

Section CatalogEdges.
Context {P : Platform}.

(** X4.  [api_list] leaves the state as it found it and ends in one of
    three ways: the exception of [DATA_FILE.exists()], which is tested
    before the [try], leaves the view; or the answer is 200 with a JSON
    list; or it is 500 with a dict holding the one key [error] and a
    string.  A 200 never carries anything but a list, and nothing raised
    while reading or decoding leaves the view. *)
Theorem api_list_answers_a_list_or_an_error (w : World) :
  (exists e, data_file_exists w = inl e /\ api_list w = (inl e, w))
  \/ (exists present resp,
        data_file_exists w = inr present
        /\ api_list w = (inr resp, w)
        /\ ((status resp = 200%Z /\ exists l, body resp = Json (PList l))
            \/ (status resp = 500%Z
                /\ exists message,
                     body resp = Json (PDict [(lit "error", PStr message)])))).
Proof.
  unfold api_list. run.
  destruct (data_file_exists w) as [e|[|]]; run.
  - left. exists e. split; reflexivity.
  - right. exists true.
    destruct (data_file_read w) as [e|text]; run.
    + destruct (is_JSONDecodeError e); eexists; (split; [reflexivity|]);
        (split; [reflexivity|]); right; (split; [reflexivity|]); eexists; reflexivity.
    + destruct (json_loads text) as [e|v]; run.
      * destruct (is_JSONDecodeError e); eexists; (split; [reflexivity|]);
          (split; [reflexivity|]); right; (split; [reflexivity|]); eexists; reflexivity.
      * destruct v; simpl; eexists; (split; [reflexivity|]); (split; [reflexivity|]);
          first [ left; split; [reflexivity|]; eexists; reflexivity
                | right; split; [reflexivity|]; eexists; reflexivity ].
  - right. exists false. eexists. split; [reflexivity|]. split; [reflexivity|].
    left. split; [reflexivity|]. eexists; reflexivity.
Qed.

End CatalogEdges.

(** X5.  [api_list] needs nothing of the datastore: on two platforms that
    decode JSON alike, whatever their environment and driver, it gives the
    same response in every state. *)
Theorem api_list_works_without_mongo (P Q : Platform) (w : World) :
  (forall text, @json_loads P text = @json_loads Q text) ->
  @api_list P w = @api_list Q w.
Proof.
  intros Hsame. unfold api_list. run.
  destruct (data_file_exists w) as [e|[|]]; run; [reflexivity| |reflexivity].
  destruct (data_file_read w) as [e|text]; run; [reflexivity|].
  rewrite (Hsame text). reflexivity.
Qed.

(** ** More on POST /submit *)

Section SubmitEdges.
Context {P : Platform}.

(** [submit] sees a form through its three trimmed fields only. *)
Lemma submit_ext (f g : MultiDict) (w : World) :
  submitted f (lit "name") = submitted g (lit "name") ->
  submitted f (lit "email") = submitted g (lit "email") ->
  submitted f (lit "message") = submitted g (lit "message") ->
  submit f w = submit g w.
Proof.
  unfold submit, submitted. intros -> -> ->. reflexivity.
Qed.

(** The three [except] clauses at once: an exception raised while the
    collection is obtained or by [insert_one] is answered 500 with the form
    and a notice whose prefix goes by the class of the exception. *)
Lemma submit_on_failure (f : MultiDict) (w : World) (e : exn) :
  submitted f (lit "name") <> [] -> submitted f (lit "email") <> [] ->
  (exists w1, get_mongo_collection w = (inl e, w1))
  \/ (exists coll w1,
        get_mongo_collection w = (inr coll, w1)
        /\ insert_one_outcome coll
             [(lit "name", submitted f (lit "name"));
              (lit "email", submitted f (lit "email"));
              (lit "message", submitted f (lit "message"))]
             (insert_calls w1) = inl e) ->
  exists w',
    submit f w =
      (inr {| status := 500;
              body := Html (lit "form.html")
                        [(lit "name", submitted f (lit "name"));
                         (lit "email", submitted f (lit "email"));
                         (lit "message", submitted f (lit "message"))]
                        (flashes w ++
                         [(lit "error",
                           match exc_type e with
                           | RuntimeError => lit "Server configuration error: "
                           | PyMongoError => lit "Database error: "
                           | _ => lit "Unexpected error: "
                           end ++ exc_str e)]) |},
       w').
Proof.
  intros Hn He Hfail.
  pose proof (get_mongo_collection_frame w) as Hframe. cbv zeta in Hframe.
  rewrite (submit_accepted f w Hn He). cbv zeta.
  destruct Hfail as [[w1 Hcall] | (coll & w1 & Hcall & Hins)];
    rewrite Hcall in *; simpl in Hframe; destruct Hframe as (_ & Hfl & _).
  - destruct (exc_type e); simpl; rewrite Hfl; eexists; reflexivity.
  - rewrite Hins. destruct (exc_type e); simpl; rewrite Hfl; eexists; reflexivity.
Qed.

(** X6.  When the trimmed name and email are non-empty and a PyMongoError
    is raised, while the collection is obtained or by [insert_one],
    [submit] answers 500 with the form template, filled with the trimmed
    values and shown the notice "Database error: " followed by the text of
    the exception; there is no redirect. *)
Theorem submit_reports_a_database_error (f : MultiDict) (w : World) (e : exn) :
  strip (get f (lit "name") (lit "")) <> [] ->
  strip (get f (lit "email") (lit "")) <> [] ->
  exc_type e = PyMongoError ->
  (exists w1, get_mongo_collection w = (inl e, w1))
  \/ (exists coll w1,
        get_mongo_collection w = (inr coll, w1)
        /\ insert_one_outcome coll
             [(lit "name", strip (get f (lit "name") (lit "")));
              (lit "email", strip (get f (lit "email") (lit "")));
              (lit "message", strip (get f (lit "message") (lit "")))]
             (insert_calls w1) = inl e) ->
  exists w',
    submit f w =
      (inr {| status := 500;
              body := Html (lit "form.html")
                        [(lit "name", strip (get f (lit "name") (lit "")));
                         (lit "email", strip (get f (lit "email") (lit "")));
                         (lit "message", strip (get f (lit "message") (lit "")))]
                        (flashes w ++ [(lit "error", lit "Database error: " ++ exc_str e)]) |},
       w').
Proof.
  intros Hn He Hclass Hfail.
  destruct (submit_on_failure f w e Hn He Hfail) as [w' Hrun].
  rewrite Hclass in Hrun. exists w'. exact Hrun.
Qed.

(** X7.  In the same situation an exception that is neither a RuntimeError
    nor a PyMongoError is answered 500 with the notice
    "Unexpected error: " followed by its text. *)
Theorem submit_reports_an_unexpected_error (f : MultiDict) (w : World) (e : exn) :
  strip (get f (lit "name") (lit "")) <> [] ->
  strip (get f (lit "email") (lit "")) <> [] ->
  exc_type e <> RuntimeError ->
  exc_type e <> PyMongoError ->
  (exists w1, get_mongo_collection w = (inl e, w1))
  \/ (exists coll w1,
        get_mongo_collection w = (inr coll, w1)
        /\ insert_one_outcome coll
             [(lit "name", strip (get f (lit "name") (lit "")));
              (lit "email", strip (get f (lit "email") (lit "")));
              (lit "message", strip (get f (lit "message") (lit "")))]
             (insert_calls w1) = inl e) ->
  exists w',
    submit f w =
      (inr {| status := 500;
              body := Html (lit "form.html")
                        [(lit "name", strip (get f (lit "name") (lit "")));
                         (lit "email", strip (get f (lit "email") (lit "")));
                         (lit "message", strip (get f (lit "message") (lit "")))]
                        (flashes w ++ [(lit "error", lit "Unexpected error: " ++ exc_str e)]) |},
       w').
Proof.
  intros Hn He Hnr Hnp Hfail.
  destruct (submit_on_failure f w e Hn He Hfail) as [w' Hrun].
  exists w'. rewrite Hrun. destruct (exc_type e); first [reflexivity|congruence].
Qed.

(** X8.  The first [except] clause goes by class alone: a RuntimeError
    raised by the driver, with MONGO_URI set, is reported like the missing
    MONGO_URI, under "Server configuration error: ". *)
Theorem submit_reports_any_runtime_error_as_configuration
    (f : MultiDict) (w : World) (e : exn) :
  strip (get f (lit "name") (lit "")) <> [] ->
  strip (get f (lit "email") (lit "")) <> [] ->
  exc_type e = RuntimeError ->
  (exists w1, get_mongo_collection w = (inl e, w1))
  \/ (exists coll w1,
        get_mongo_collection w = (inr coll, w1)
        /\ insert_one_outcome coll
             [(lit "name", strip (get f (lit "name") (lit "")));
              (lit "email", strip (get f (lit "email") (lit "")));
              (lit "message", strip (get f (lit "message") (lit "")))]
             (insert_calls w1) = inl e) ->
  exists w',
    submit f w =
      (inr {| status := 500;
              body := Html (lit "form.html")
                        [(lit "name", strip (get f (lit "name") (lit "")));
                         (lit "email", strip (get f (lit "email") (lit "")));
                         (lit "message", strip (get f (lit "message") (lit "")))]
                        (flashes w ++
                         [(lit "error", lit "Server configuration error: " ++ exc_str e)]) |},
       w').
Proof.
  intros Hn He Hclass Hfail.
  destruct (submit_on_failure f w e Hn He Hfail) as [w' Hrun].
  rewrite Hclass in Hrun. exists w'. exact Hrun.
Qed.

End SubmitEdges.

Section SubmitInputs.
Context {P : Platform}.

(** X9.  [submit] always returns, with one of three answers: 302 to
    [/success], after exactly one [insert_one] call that returned; 400
    with the form, after no call; or 500 with the form, after at most one
    call.  It never answers 200, never redirects without a stored
    document, and never calls [insert_one] twice. *)
Theorem submit_answers_302_400_or_500 (f : MultiDict) (w : World) :
  exists resp w',
    submit f w = (inr resp, w')
    /\ ((resp = {| status := 302; body := Location (lit "/success") |}
         /\ exists coll d res,
              insert_calls w' = insert_calls w ++ [(coll, d)]
              /\ insert_one_outcome coll d (insert_calls w) = inr res)
        \/ (status resp = 400%Z
            /\ insert_calls w' = insert_calls w
            /\ exists context shown, body resp = Html (lit "form.html") context shown)
        \/ (status resp = 500%Z
            /\ (insert_calls w' = insert_calls w
                \/ exists coll d, insert_calls w' = insert_calls w ++ [(coll, d)])
            /\ exists context shown, body resp = Html (lit "form.html") context shown)).
Proof.
  destruct (submitted f (lit "name")) as [|a n] eqn:En.
  { rewrite (submit_rejected f w (or_introl En)). do 2 eexists.
    split; [reflexivity|]. right; left. simpl.
    repeat split. do 2 eexists; reflexivity. }
  destruct (submitted f (lit "email")) as [|b m] eqn:Em.
  { rewrite (submit_rejected f w (or_intror Em)). do 2 eexists.
    split; [reflexivity|]. right; left. simpl.
    repeat split. do 2 eexists; reflexivity. }
  assert (Hn : submitted f (lit "name") <> []) by (rewrite En; discriminate).
  assert (He : submitted f (lit "email") <> []) by (rewrite Em; discriminate).
  rewrite (submit_accepted f w Hn He). cbv zeta.
  pose proof (get_mongo_collection_frame w) as Hframe. cbv zeta in Hframe.
  destruct (get_mongo_collection w) as [[e|coll] w1]; simpl in Hframe;
    destruct Hframe as (Hcalls & _).
  - destruct (exc_type e); do 2 eexists; (split; [reflexivity|]);
      right; right; simpl; (split; [reflexivity|]);
      (split; [left; exact Hcalls | do 2 eexists; reflexivity]).
  - destruct (insert_one_outcome _ _ _) as [e|res] eqn:Hins.
    + destruct (exc_type e); do 2 eexists; (split; [reflexivity|]);
        right; right; simpl; (split; [reflexivity|]);
        (split; [right; do 2 eexists; rewrite Hcalls; reflexivity
                | do 2 eexists; reflexivity]).
    + do 2 eexists. split; [reflexivity|]. left. split; [reflexivity|].
      exists coll. eexists. exists res. simpl. rewrite Hcalls.
      split; [reflexivity|]. rewrite <- Hcalls. exact Hins.
Qed.

(** X10.  [submit] answers 400 exactly when the name or the email, as
    submitted (or the empty string for an absent one), holds nothing but
    whitespace; so a message of any content, or none, is never a reason to
    refuse. *)
Theorem submit_answers_400_iff_blank (f : MultiDict) (w : World) :
  (exists page w', submit f w = (inr {| status := 400; body := page |}, w'))
  <-> (forallb isspace (get f (lit "name") (lit "")) = true
       \/ forallb isspace (get f (lit "email") (lit "")) = true).
Proof.
  split.
  - intros (page & w' & Hrun).
    destruct (submitted f (lit "name")) as [|a n] eqn:En.
    { left. apply strip_nil_iff. exact En. }
    destruct (submitted f (lit "email")) as [|b m] eqn:Em.
    { right. apply strip_nil_iff. exact Em. }
    exfalso.
    assert (Hn : submitted f (lit "name") <> []) by (rewrite En; discriminate).
    assert (He : submitted f (lit "email") <> []) by (rewrite Em; discriminate).
    rewrite (submit_accepted f w Hn He) in Hrun. cbv zeta in Hrun.
    destruct (get_mongo_collection w) as [[e|coll] w1].
    + destruct (exc_type e); discriminate Hrun.
    + destruct (insert_one_outcome _ _ _) as [e|res];
        [destruct (exc_type e)|]; discriminate Hrun.
  - intros Hblank.
    assert (Hbad : submitted f (lit "name") = [] \/ submitted f (lit "email") = []).
    { destruct Hblank as [H|H]; [left|right]; apply strip_nil_iff, H. }
    rewrite (submit_rejected f w Hbad). do 2 eexists. reflexivity.
Qed.

(** X11.  A field that is none of name, email and message is ignored:
    with or without it, wherever it stands, the response and the final
    state are the same. *)
Theorem submit_ignores_other_fields (f1 f2 : MultiDict) (key v : str) (w : World) :
  key <> lit "name" -> key <> lit "email" -> key <> lit "message" ->
  submit (f1 ++ (key, v) :: f2) w = submit (f1 ++ f2) w.
Proof.
  intros Hn He Hm. unfold submit, get.
  rewrite !getitem_other_key by (apply str_eqb_neq; assumption).
  reflexivity.
Qed.

(** X12.  Of a field sent more than once the first value counts: a second
    pair under a key that an earlier pair holds changes neither the
    response nor the final state. *)
Theorem submit_reads_the_first_value
    (f1 f2 : MultiDict) (key v v' : str) (w : World) :
  getitem f1 key = Some v ->
  submit (f1 ++ (key, v') :: f2) w = submit (f1 ++ f2) w.
Proof.
  intros Hfirst. unfold submit, get.
  rewrite !(fun k => getitem_shadowed f1 f2 key k v v' Hfirst).
  reflexivity.
Qed.

(** X13.  Whitespace around a value is never seen: a form with a value
    padded by whitespace on either side gets the response and the final
    state of the form with the bare value, stored document included. *)
Theorem submit_ignores_padding
    (f1 f2 : MultiDict) (key pre v post : str) (w : World) :
  forallb isspace pre = true ->
  forallb isspace post = true ->
  submit (f1 ++ (key, pre ++ v ++ post) :: f2) w = submit (f1 ++ (key, v) :: f2) w.
Proof.
  intros Hpre Hpost.
  apply submit_ext; apply submitted_padded; assumption.
Qed.

End SubmitInputs.

(** ** More on the process *)

Section ProcessEdges.
Context {P : Platform}.

(** What one [submit] adds to the record of [insert_one] calls. *)
Lemma submit_step (f : MultiDict) (w : World) :
  insert_calls (snd (submit f w)) = insert_calls w
  \/ exists coll w1,
       get_mongo_collection w = (inr coll, w1)
       /\ insert_calls (snd (submit f w)) =
            insert_calls w ++
              [(coll, [(lit "name", submitted f (lit "name"));
                       (lit "email", submitted f (lit "email"));
                       (lit "message", submitted f (lit "message"))])]
       /\ mongo_client (snd (submit f w)) = mongo_client w1
       /\ submitted f (lit "name") <> []
       /\ submitted f (lit "email") <> [].
Proof.
  destruct (submitted f (lit "name")) as [|a n] eqn:En.
  { rewrite (submit_rejected f w (or_introl En)). left. reflexivity. }
  destruct (submitted f (lit "email")) as [|b m] eqn:Em.
  { rewrite (submit_rejected f w (or_intror Em)). left. reflexivity. }
  assert (Hn : submitted f (lit "name") <> []) by (rewrite En; discriminate).
  assert (He : submitted f (lit "email") <> []) by (rewrite Em; discriminate).
  rewrite (submit_accepted f w Hn He). cbv zeta.
  pose proof (get_mongo_collection_frame w) as Hframe. cbv zeta in Hframe.
  rewrite En, Em in *.
  destruct (get_mongo_collection w) as [[e|coll] w1]; simpl in Hframe;
    destruct Hframe as (Hcalls & _).
  - left. destruct (exc_type e); simpl; exact Hcalls.
  - right. exists coll, w1. split; [reflexivity|].
    destruct (insert_one_outcome _ _ _) as [e|res]; [destruct (exc_type e)|];
      simpl; rewrite Hcalls; repeat split; assumption.
Qed.

(** What the run of a request list adds to that record: documents of the
    shape [submission], each sent to the configured collection on the
    client the handle holds at the end. *)
Lemma serve_inserts (rs : list (Request * Ambient)) (w : World) :
  exists added,
    insert_calls (snd (serve rs w)) = insert_calls w ++ added
    /\ List.length added <= List.length rs
    /\ Forall (fun call =>
                 submission (snd call)
                 /\ fst call =
                      {| coll_database :=
                           {| db_client := db_client (coll_database (fst call));
                              db_name := DB_NAME |};
                         coll_name := COLLECTION_NAME |}
                 /\ mongo_client (snd (serve rs w)) =
                      Some (db_client (coll_database (fst call))))
              added.
Proof.
  revert w. induction rs as [|[r a] rs IH]; intros w; simpl.
  - exists []. rewrite app_nil_r. repeat split; [apply le_n|constructor].
  - destruct (dispatch_request r (enter a w)) as [out w1] eqn:Hstep.
    assert (Hw1 : w1 = snd (dispatch_request r (enter a w))) by (rewrite Hstep; reflexivity).
    destruct (IH w1) as (rest & Hrest & Hlen & Hall).
    destruct (serve rs w1) as [outs w2] eqn:Hrun. simpl in *.
    assert (Hquiet : insert_calls w1 = insert_calls w ->
                     exists added,
                       insert_calls w2 = insert_calls w ++ added
                       /\ List.length added <= S (List.length rs)
                       /\ Forall (fun call =>
                            submission (snd call)
                            /\ fst call =
                                 {| coll_database :=
                                      {| db_client := db_client (coll_database (fst call));
                                         db_name := DB_NAME |};
                                    coll_name := COLLECTION_NAME |}
                            /\ mongo_client w2 = Some (db_client (coll_database (fst call))))
                          added).
    { intros Hsame. exists rest. rewrite Hrest, Hsame.
      repeat split; [apply le_S, Hlen|exact Hall]. }
    destruct r; simpl in Hw1.
    + apply Hquiet. rewrite Hw1, api_list_pure. reflexivity.
    + apply Hquiet. rewrite Hw1. reflexivity.
    + destruct (submit_step request_form (enter a w))
        as [Hsame | (coll & w0 & Hcall & Hadd & Hhandle & Hn & He)].
      * apply Hquiet. rewrite Hw1. exact Hsame.
      * destruct (get_mongo_collection_returns (enter a w) w0 coll Hcall)
          as (c & Hcoll & Hc & _).
        rewrite <- Hw1 in Hadd, Hhandle. rewrite Hc in Hhandle.
        pose proof (serve_keeps_handle rs w1 c Hhandle) as [Hkept _].
        rewrite Hrun in Hkept. simpl in Hkept.
        eexists (_ :: rest). rewrite Hrest, Hadd, <- app_assoc. simpl.
        split; [reflexivity|]. split; [apply le_n_S, Hlen|].
        constructor; [|exact Hall]. simpl. split; [|split].
        -- do 3 eexists. split; [reflexivity|].
           unfold submitted in *. rewrite !strip_idempotent. repeat split; assumption.
        -- rewrite Hcoll. reflexivity.
        -- rewrite Hcoll. simpl. exact Hkept.
    + apply Hquiet. rewrite Hw1. reflexivity.
Qed.

(** X14.  Whatever requests a process serves, the record of [insert_one]
    calls only grows at its end, by at most one call per request, and
    every document it sends is a [submission]: the keys name, email and
    message in this order, values free of surrounding whitespace, name and
    email not empty. *)
Theorem served_documents_are_submissions (rs : list (Request * Ambient)) (w : World) :
  exists added,
    insert_calls (snd (serve rs w)) = insert_calls w ++ added
    /\ List.length added <= List.length rs
    /\ Forall (fun call => submission (snd call)) added.
Proof.
  destruct (serve_inserts rs w) as (added & Hcalls & Hlen & Hall).
  exists added. repeat split; [exact Hcalls|exact Hlen|].
  eapply Forall_impl; [|exact Hall]. intros call (Hdoc & _). exact Hdoc.
Qed.

(** X15.  Whatever requests a process serves one after another, every
    [insert_one] call it makes goes to the collection COLLECTION_NAME of
    the database DB_NAME on one and the same client, the one the handle
    holds at the end. *)
Theorem served_documents_go_to_one_collection (rs : list (Request * Ambient)) (w : World) :
  exists added,
    insert_calls (snd (serve rs w)) = insert_calls w ++ added
    /\ Forall (fun call =>
                 exists c,
                   mongo_client (snd (serve rs w)) = Some c
                   /\ fst call =
                        {| coll_database := {| db_client := c; db_name := DB_NAME |};
                           coll_name := COLLECTION_NAME |})
              added.
Proof.
  destruct (serve_inserts rs w) as (added & Hcalls & _ & Hall).
  exists added. split; [exact Hcalls|].
  eapply Forall_impl; [|exact Hall]. intros call (_ & Hcoll & Hhandle).
  eexists. split; [exact Hhandle|exact Hcoll].
Qed.

(** X16.  Of all that can be raised while requests are served, by the
    file, the decoder or the driver, one thing only leaves a view: what
    [DATA_FILE.exists()] raises in [api_list], where the test stands before
    the [try].  Every other request of any list, and GET /api whenever
    [exists()] answers, gets a response. *)
Theorem serve_lets_only_exists_escape (rs : list (Request * Ambient)) (w : World) :
  Forall2
    (fun arrival out =>
       (exists resp, out = inr resp)
       \/ (exists e,
             fst arrival = GET_api
             /\ file_exists (snd arrival) = inl e
             /\ out = inl e))
    rs (fst (serve rs w)).
Proof.
  revert w. induction rs as [|[r a] rs IH]; intros w; simpl.
  - constructor.
  - pose proof (dispatch_request_returns r (enter a w)) as Hout.
    destruct (dispatch_request r (enter a w)) as [out w1]. simpl in Hout.
    pose proof (IH w1) as Hall.
    destruct (serve rs w1) as [outs w2]. simpl in *.
    constructor; [|exact Hall].
    destruct Hout as [[resp Hresp] | (e & Hr & He & Hesc)].
    + left. exists resp. exact Hresp.
    + right. exists e. repeat split; assumption.
Qed.

(** X17.  Only POST /submit touches the datastore: GET /api, GET / and
    GET /success leave the handle, the record of clients and the record of
    [insert_one] calls as they found them, and GET /api leaves the whole
    state so.  (The two pages take the pending notices out of the session
    when they show them.) *)
Theorem get_requests_leave_the_datastore_alone (r : Request) (w : World) :
  (forall f, r <> POST_submit f) ->
  mongo_client (snd (dispatch_request r w)) = mongo_client w
  /\ constructed (snd (dispatch_request r w)) = constructed w
  /\ insert_calls (snd (dispatch_request r w)) = insert_calls w
  /\ (r = GET_api -> snd (dispatch_request r w) = w).
Proof.
  intros Hget. destruct r; simpl.
  - rewrite api_list_pure. repeat split.
  - repeat split. discriminate.
  - exfalso. apply (Hget request_form). reflexivity.
  - repeat split. discriminate.
Qed.

(** X18.  The [debug] flag of the entry point is on exactly when
    FLASK_DEBUG is unset or is the one-character string "1"; any other
    value turns it off. *)
Theorem debug_iff_unset_or_1 :
  debug = true
  <-> (getitem environ (lit "FLASK_DEBUG") = None
       \/ getitem environ (lit "FLASK_DEBUG") = Some (lit "1")).
Proof.
  unfold debug, environ_get_default, get.
  destruct (getitem environ (lit "FLASK_DEBUG")) as [v|].
  - split.
    + intros E. right. f_equal. apply str_eqb_eq, E.
    + intros [H|H]; [discriminate|]. injection H as ->. apply str_eqb_refl.
  - split; [intros _; left; reflexivity|intros _; reflexivity].
Qed.

End ProcessEdges.

(** ** Runs on the sample platform and on the failing ones *)

Lemma construction_failure_is_not_cached_witness :
  @get_mongo_collection Outage.bad_uri Sample.boot =
    (inl (Exn PyMongoError (lit "Invalid URI scheme")), Sample.boot)
  /\ mongo_client (snd (@get_mongo_collection Outage.bad_uri Sample.boot)) = None
  /\ @get_mongo_collection Outage.bad_uri
       (snd (@get_mongo_collection Outage.bad_uri Sample.boot)) =
     @get_mongo_collection Outage.bad_uri Sample.boot.
Proof.
  apply (@construction_failure_is_not_cached Outage.bad_uri (lit "mongo//localhost")).
  - vm_compute. reflexivity.
  - reflexivity.
  - reflexivity.
Defined.

Lemma handle_is_set_before_the_lookup_witness :
  exists w',
    @get_mongo_collection Outage.bad_name Sample.boot =
      (inl (Exn PyMongoError (lit "database names cannot contain the character ' '")), w')
    /\ mongo_client w' = Some Sample.client0
    /\ constructed w' = [Sample.client0].
Proof.
  apply (@handle_is_set_before_the_lookup Outage.bad_name
           (lit "mongodb://localhost:27017") Sample.boot).
  - vm_compute. reflexivity.
  - reflexivity.
  - reflexivity.
  - left. vm_compute. reflexivity.
Defined.

Lemma get_mongo_collection_returns_the_configured_collection_witness :
  db_name (coll_database Sample.submissions) = lit "mydatabase"
  /\ coll_name Sample.submissions = lit "submissions"
  /\ mongo_client (set_mongo_client Sample.client0
                     (add_constructed Sample.client0 Sample.boot)) =
       Some (db_client (coll_database Sample.submissions))
  /\ exists uri, getitem (@environ Sample.configured) (lit "MONGO_URI") = Some uri.
Proof.
  apply (@get_mongo_collection_returns_the_configured_collection Sample.configured
           Sample.boot).
  vm_compute. reflexivity.
Defined.

Lemma api_list_works_without_mongo_witness :
  @api_list Sample.configured (Sample.boot_with Sample.catalog_text) =
    @api_list Sample.unconfigured (Sample.boot_with Sample.catalog_text).
Proof.
  apply (api_list_works_without_mongo Sample.configured Sample.unconfigured).
  intros text. reflexivity.
Defined.

Lemma api_list_other_failure_witness :
  @api_list Sample.configured Outage.locked =
    (inr {| status := 500;
            body := Json (PDict [(lit "error", PStr (lit "[Errno 13] Permission denied"))]) |},
     Outage.locked).
Proof.
  apply (@api_list_other_failure Sample.configured Outage.locked
           (Exn OtherException (lit "[Errno 13] Permission denied"))).
  - reflexivity.
  - left. reflexivity.
  - simpl. discriminate.
Defined.

Lemma submit_reports_a_database_error_witness :
  exists w',
    @submit Outage.unreachable Sample.ann_form Sample.boot =
      (inr {| status := 500;
              body := Html (lit "form.html")
                        [(lit "name", lit "Ann"); (lit "email", lit "ann@x.com");
                         (lit "message", lit "")]
                        [(lit "error",
                          lit "Database error: localhost:27017: Connection refused")] |},
       w').
Proof.
  apply (@submit_reports_a_database_error Outage.unreachable Sample.ann_form Sample.boot
           (Exn PyMongoError (lit "localhost:27017: Connection refused"))).
  - vm_compute. discriminate.
  - vm_compute. discriminate.
  - reflexivity.
  - right. exists Sample.submissions.
    exists (set_mongo_client Sample.client0 (add_constructed Sample.client0 Sample.boot)).
    split; vm_compute; reflexivity.
Defined.

Lemma submit_reports_an_unexpected_error_witness :
  exists w',
    @submit Outage.surprising Sample.ann_form Sample.boot =
      (inr {| status := 500;
              body := Html (lit "form.html")
                        [(lit "name", lit "Ann"); (lit "email", lit "ann@x.com");
                         (lit "message", lit "")]
                        [(lit "error", lit "Unexpected error: cannot encode object")] |},
       w').
Proof.
  apply (@submit_reports_an_unexpected_error Outage.surprising Sample.ann_form Sample.boot
           (Exn OtherException (lit "cannot encode object"))).
  - vm_compute. discriminate.
  - vm_compute. discriminate.
  - simpl. discriminate.
  - simpl. discriminate.
  - right. exists Sample.submissions.
    exists (set_mongo_client Sample.client0 (add_constructed Sample.client0 Sample.boot)).
    split; vm_compute; reflexivity.
Defined.

Lemma submit_reports_any_runtime_error_as_configuration_witness :
  exists w',
    @submit Outage.exhausted Sample.ann_form Sample.boot =
      (inr {| status := 500;
              body := Html (lit "form.html")
                        [(lit "name", lit "Ann"); (lit "email", lit "ann@x.com");
                         (lit "message", lit "")]
                        [(lit "error",
                          lit "Server configuration error: can't start new thread")] |},
       w').
Proof.
  apply (@submit_reports_any_runtime_error_as_configuration Outage.exhausted
           Sample.ann_form Sample.boot (Exn RuntimeError (lit "can't start new thread"))).
  - vm_compute. discriminate.
  - vm_compute. discriminate.
  - reflexivity.
  - right. exists Sample.submissions.
    exists (set_mongo_client Sample.client0 (add_constructed Sample.client0 Sample.boot)).
    split; vm_compute; reflexivity.
Defined.

Lemma submit_ignores_other_fields_witness :
  @submit Sample.configured
     ([(lit "name", lit "Ann")] ++ (lit "phone", lit "555") :: [(lit "email", lit "ann@x.com")])
     Sample.boot =
  @submit Sample.configured
     ([(lit "name", lit "Ann")] ++ [(lit "email", lit "ann@x.com")]) Sample.boot.
Proof.
  apply (@submit_ignores_other_fields Sample.configured).
  - vm_compute. discriminate.
  - vm_compute. discriminate.
  - vm_compute. discriminate.
Defined.

Lemma submit_reads_the_first_value_witness :
  @submit Sample.configured (Sample.short_form ++ (lit "name", lit "Bob") :: []) Sample.boot =
  @submit Sample.configured (Sample.short_form ++ []) Sample.boot.
Proof.
  apply (@submit_reads_the_first_value Sample.configured Sample.short_form []
           (lit "name") (lit "Ann") (lit "Bob")).
  vm_compute. reflexivity.
Defined.

Lemma submit_ignores_padding_witness :
  @submit Sample.configured
     ([] ++ (lit "name", lit "  " ++ lit "Ann" ++ lit " ") :: [(lit "email", lit "ann@x.com")])
     Sample.boot =
  @submit Sample.configured
     ([] ++ (lit "name", lit "Ann") :: [(lit "email", lit "ann@x.com")]) Sample.boot.
Proof.
  apply (@submit_ignores_padding Sample.configured).
  - vm_compute. reflexivity.
  - vm_compute. reflexivity.
Defined.

Lemma get_requests_leave_the_datastore_alone_witness :
  mongo_client (snd (@dispatch_request Sample.configured GET_index Sample.boot)) = None
  /\ constructed (snd (@dispatch_request Sample.configured GET_index Sample.boot)) = []
  /\ insert_calls (snd (@dispatch_request Sample.configured GET_index Sample.boot)) = []
  /\ (GET_index = GET_api ->
      snd (@dispatch_request Sample.configured GET_index Sample.boot) = Sample.boot).
Proof.
  apply (@get_requests_leave_the_datastore_alone Sample.configured GET_index Sample.boot).
  intros f. discriminate.
Defined.

Lemma serve_at_most_one_witness :
  at_most_one_client (snd (@serve Sample.configured Sample.requests Sample.boot)).
Proof.
  apply (@serve_at_most_one Sample.configured Sample.requests Sample.boot).
  vm_compute. reflexivity.
Defined.
